(** * orbitx.common: savefile loading and writing

    A shallow embedding of [load_savefile] and [write_savefile] from
    [orbitx/common.py], together with the parts of [pathlib] and of the
    process environment (file system, object store, log) they act on. *)

From Stdlib Require Import ZArith Floats Ascii String List Bool Lia.
From stdpp Require Import base gmap strings list.

Local Open Scope string_scope.
Local Open Scope Z_scope.

(** ** Python [str] operations used by the source *)

Module Str.

(** [str.lower] on one character.  Strings are sequences of UTF-8 bytes;
    only the ASCII capitals are mapped.  The source compares the lowered
    suffix with '.rnd' and '.json' only, and no character outside ASCII
    lowers to one of the letters of these two words. *)
Definition lower_ascii (c : ascii) : ascii :=
  let n := nat_of_ascii c in
  if ((65 <=? n)%nat && (n <=? 90)%nat)%bool then ascii_of_nat (n + 32) else c.

Fixpoint lower (s : string) : string :=
  match s with
  | EmptyString => EmptyString
  | String c r => String (lower_ascii c) (lower r)
  end.

(** [s.rfind(c)]: the index of the last occurrence, [None] for Python's -1. *)
Fixpoint rfind (c : ascii) (s : string) : option nat :=
  match s with
  | EmptyString => None
  | String a r =>
      match rfind c r with
      | Some i => Some (S i)
      | None => if Ascii.eqb a c then Some 0%nat else None
      end
  end.

(** [s[i:]]. *)
Fixpoint drop (i : nat) (s : string) : string :=
  match i, s with
  | O, _ => s
  | S j, EmptyString => EmptyString
  | S j, String _ r => drop j r
  end.

(** [c in s]. *)
Fixpoint contains (c : ascii) (s : string) : bool :=
  match s with
  | EmptyString => false
  | String a r => Ascii.eqb a c || contains c r
  end.

(** [s.split(c)]: never empty, the pieces hold no [c]. *)
Fixpoint split (c : ascii) (s : string) : list string :=
  match s with
  | EmptyString => [EmptyString]
  | String a r =>
      if Ascii.eqb a c then EmptyString :: split c r
      else match split c r with
           | h :: t => String a h :: t
           | [] => [String a EmptyString]
           end
  end.

(** [sep.join(l)]. *)
Fixpoint join (sep : string) (l : list string) : string :=
  match l with
  | [] => EmptyString
  | [x] => x
  | x :: r => x ++ sep ++ join sep r
  end.

Definition startswith_char (c : ascii) (s : string) : bool :=
  match s with
  | String a _ => Ascii.eqb a c
  | EmptyString => false
  end.

End Str.

(** ** [pathlib.Path] (POSIX flavour) *)

Module Pathlib.

(** A parsed path: whether it is anchored at the root, and its components
    below the anchor.  [Path('.')] and [Path('')] have no component. *)
Record Path : Type := mkPath { root : bool; parts : list string }.

#[global] Instance Path_eq_dec : EqDecision Path.
Proof. solve_decision. Defined.

#[global] Instance Path_countable : Countable Path.
Proof.
  refine (inj_countable' (fun p => (root p, parts p))
                         (fun x => mkPath (fst x) (snd x)) _).
  intros [r ps]; reflexivity.
Defined.

(** A component as the parser keeps it: neither empty nor '.', no separator. *)
Definition is_component (x : string) : bool :=
  negb (String.eqb x "") && negb (String.eqb x ".") && negb (Str.contains "/" x).

(** The components of one argument of [Path(...)] or of [/]. *)
Definition components (s : string) : list string :=
  List.filter (fun x => negb (String.eqb x "") && negb (String.eqb x "."))
              (Str.split "/" s).

(** [self / key]: an absolute [key] replaces [self], a relative one is
    appended component by component. *)
Definition truediv (p : Path) (key : string) : Path :=
  if Str.startswith_char "/" key then mkPath true (components key)
  else mkPath (root p) (parts p ++ components key).

(** [Path(s)]. *)
Definition of_str (s : string) : Path := truediv (mkPath false []) s.

(** [str(p)]. *)
Definition str (p : Path) : string :=
  match root p, parts p with
  | false, [] => "."
  | false, ps => Str.join "/" ps
  | true, ps => "/" ++ Str.join "/" ps
  end.

(** [p.name]: the last component, '' when there is none. *)
Definition name (p : Path) : string := List.last (parts p) "".

(** [p.parent]: the path without its last component; the anchor and the
    empty path are their own parents. *)
Definition parent (p : Path) : Path := mkPath (root p) (List.removelast (parts p)).

(** [p.suffix]:
<<
    name = self.name
    i = name.rfind('.')
    if 0 < i < len(name) - 1: return name[i:]
    else: return ''
>> *)
Definition suffix (p : Path) : string :=
  let name := name p in
  match Str.rfind "." name with
  | Some i =>
      if ((0 <? i)%nat && (i <? String.length name - 1)%nat)%bool
      then Str.drop i name else ""
  | None => ""
  end.

(** Paths as [Path(...)] and [/] build them. *)
Definition wf (p : Path) : Prop := Forall (fun x => is_component x = true) (parts p).

End Pathlib.

Import Pathlib.

(** ** Module-level constants of [common.py] *)

Definition HABITAT : string := "Habitat".
Definition AYSE : string := "AYSE".
Definition SUN : string := "Sun".
Definition EARTH : string := "Earth".
Definition MODULE : string := "Module".
Definition OCESS : string := "OCESS".

(** [class TimeAcc(NamedTuple)]. *)
Record TimeAcc : Type := mkTimeAcc { value : Z; desc : string; accurate_bound : float }.

Definition TIME_ACCS : list TimeAcc :=
  [ mkTimeAcc 0 "Pause" 10000;
    mkTimeAcc 1 "1×" 1000;
    mkTimeAcc 5 "5×" 12;
    mkTimeAcc 10 "10×" 9;
    mkTimeAcc 50 "50×" 7;
    mkTimeAcc 100 "100×" 5;
    mkTimeAcc 1000 "1,000×" 3;
    mkTimeAcc 10000 "10,000×" 1;
    mkTimeAcc 100000 "100,000×" 0x1.999999999999ap-4 ].

(** The magnitudes of [TIME_ACCS] other than the pause. *)
Definition allowed_time_accs : list Z :=
  List.filter (fun v => negb (Z.eqb v 0)) (List.map value TIME_ACCS).

Definition DEFAULT_CENTRE : string := HABITAT.
Definition DEFAULT_REFERENCE : string := EARTH.
Definition DEFAULT_TARGET : string := AYSE.

(** The SRBs are full but unused, resp. fully used; both are stored in the
    float field [srb_time]. *)
Definition SRB_FULL : float := (-1)%float.
Definition SRB_EMPTY : float := (-2)%float.
Definition SRB_BURNTIME : float := 120%float.

(** ** Exceptions, results and log records *)

(** The exceptions that cross [load_savefile] and [write_savefile].  The
    first three are raised by the interpreter and the operating system, the
    next three by the legacy decoder and by the protobuf JSON codec, the
    last two by [open(_, 'r')] on a path that exists. *)
Inductive Exn : Type :=
| FileNotFoundError
| OSError
| AttributeError
| LegacyFormatError
| SchemaParseError
| SchemaEncodeError
| IsADirectoryError
| PermissionError.

(** Why [open(_, 'r')] refuses a path that exists. *)
Inductive Refusal : Type := Directory | Forbidden.

Definition refusal_error (r : Refusal) : Exn :=
  match r with
  | Directory => IsADirectoryError
  | Forbidden => PermissionError
  end.

Inductive Result (A : Type) : Type :=
| Ok (a : A)
| Raise (e : Exn).
Arguments Ok {A} a.
Arguments Raise {A} e.

Inductive Level : Type := INFO | WARNING.

Record LogRecord : Type := mkLog { level : Level; message : string }.

(** Python's [==] on floats is the IEEE comparison: 0.0 and -0.0 are both
    equal to 0, a NaN is equal to nothing. *)
Definition float_eq (x y : float) : bool := PrimFloat.eqb x y.

(** Object references. *)
Definition loc : Type := positive.

(** ** The state record and the collaborators *)

(** Modelled from the spec: the class [data_structures.PhysicsState] is not in
    [common.py].  Section 3 of the specification gives the record: four
    scalars and the entity collection, which this module never looks into.
    [common.py] reads and assigns the attributes [time_acc], [reference],
    [target] and [srb_time]. *)
Record PhysicsState (Entity : Type) : Type := mkPhysicsState {
  time_acc : Z;
  reference : string;
  target : string;
  srb_time : float;
  entities : list Entity
}.
Arguments mkPhysicsState {Entity} _ _ _ _ _.
Arguments time_acc {Entity} _.
Arguments reference {Entity} _.
Arguments target {Entity} _.
Arguments srb_time {Entity} _.
Arguments entities {Entity} _.

(** [load_savefile] and [write_savefile] delegate to code outside
    [common.py]: [pathlib] for the absolute path, the OrbitV reader of
    [orbitx.orbitv_file_interface], the generated message class
    [orbitx_pb2.PhysicalState] (the type [PhysicalState] below), the state
    class of [orbitx.data_structures] and [google.protobuf.json_format]. *)
Class Collaborators (Entity PhysicalState : Type) : Type := {
  (** [file.resolve()]: the absolute path, as the working directory and the
      symbolic links of the machine give it; it does not require the file to
      exist.  Only log messages use it. *)
  resolve : Path -> Path;
  (** [orbitv_file_interface.clone_orbitv_state(file)]: reads the .rnd file
      and the STARSr file next to it, and builds a new state or raises. *)
  clone_orbitv_state : Path -> gmap Path string -> Result (PhysicsState Entity);
  (** [google.protobuf.json_format.Parse(data, protos.PhysicalState())]. *)
  json_Parse : string -> Result PhysicalState;
  (** [data_structures.PhysicsState(None, read_state)]. *)
  PhysicsState_init : PhysicalState -> PhysicsState Entity;
  (** [state.as_proto()]: a new message built from the fields of the state,
      which it only reads. *)
  as_proto : PhysicsState Entity -> PhysicalState;
  (** [google.protobuf.json_format.MessageToJson(message)]. *)
  MessageToJson : PhysicalState -> Result string
}.

(** ** The process environment *)

(** The files that can be read and their text, the other paths that exist
    (directories, files without read permission), the paths [open(_, 'w')]
    refuses (missing directory, permissions, a directory in the way), the
    [PhysicsState] objects alive, and the records handed to the root logger,
    oldest first.  A path exists when it is in [files] or in [unreadable]. *)
Record World (Entity : Type) : Type := mkWorld {
  files : gmap Path string;
  unreadable : gmap Path Refusal;
  unwritable : gset Path;
  heap : gmap loc (PhysicsState Entity);
  log : list LogRecord
}.
Arguments mkWorld {Entity} _ _ _ _ _.
Arguments files {Entity} _.
Arguments unreadable {Entity} _.
Arguments unwritable {Entity} _.
Arguments heap {Entity} _.
Arguments log {Entity} _.

Section Savefile.

Context {Entity PhysicalState : Type} {C : Collaborators Entity PhysicalState}.

#[local] Abbreviation State := (PhysicsState Entity).
#[local] Abbreviation World := (World Entity).

Definition with_files (f : gmap Path string) (w : World) : World :=
  mkWorld f (unreadable w) (unwritable w) (heap w) (log w).
Definition with_heap (h : gmap loc State) (w : World) : World :=
  mkWorld (files w) (unreadable w) (unwritable w) h (log w).
Definition with_log (l : list LogRecord) (w : World) : World :=
  mkWorld (files w) (unreadable w) (unwritable w) (heap w) l.

(** Statements act on the world and return a value or raise; what was done
    before an exception stays done. *)
Definition M (A : Type) : Type := World -> Result A * World.

#[export] Instance M_ret : MRet M := fun A a w => (Ok a, w).
#[export] Instance M_bind : MBind M := fun A B k m w =>
  match m w with
  | (Ok a, w') => k a w'
  | (Raise e, w') => (Raise e, w')
  end.

Definition raise {A} (e : Exn) : M A := fun w => (Raise e, w).

(** A call of a collaborator that does not touch the world. *)
Definition call {A} (r : Result A) : M A := fun w => (r, w).

Definition pass : M unit := mret tt.

(** [logging.getLogger().info(msg)] and [.warning(msg)]. *)
Definition logging_info (msg : string) : M unit :=
  fun w => (Ok tt, with_log (log w ++ [mkLog INFO msg]) w).
Definition logging_warning (msg : string) : M unit :=
  fun w => (Ok tt, with_log (log w ++ [mkLog WARNING msg]) w).

(** What is on disk, for a collaborator that reads files itself. *)
Definition file_system : M (gmap Path string) := fun w => (Ok (files w), w).

(** The error of [open(file, 'r')] on a path that is no readable file:
    the path exists and is refused, or nothing is there. *)
Definition open_r_error (file : Path) (w : World) : Exn :=
  match unreadable w !! file with
  | Some r => refusal_error r
  | None => FileNotFoundError
  end.

(** [with open(file, 'r') as f: data = f.read()]. *)
Definition read_text (file : Path) : M string :=
  fun w => match files w !! file with
           | Some data => (Ok data, w)
           | None => (Raise (open_r_error file w), w)
           end.

(** [open(file, 'w')]: creates the file or empties it. *)
Definition open_w (file : Path) : M unit :=
  fun w => if decide (file ∈ unwritable w) then (Raise OSError, w)
           else (Ok tt, with_files (<[file := ""]> (files w)) w).

(** [outfile.write(text)] followed by the close at the end of [with].  An
    error of the write itself (disk full) is outside the model: after [open]
    the errors covered are those of [as_proto] and of the encoder. *)
Definition write_text (file : Path) (text : string) : M unit :=
  fun w => (Ok tt, with_files (<[file := text]> (files w)) w).

(** A new object. *)
Definition new (s : State) : M loc :=
  fun w => let l := fresh (dom (heap w)) in
           (Ok l, with_heap (<[l := s]> (heap w)) w).

(** [obj.attr], and [obj.method()] for a method that only reads [obj]; an
    object that is no [PhysicsState] has no such attribute. *)
Definition getattr {A} (obj : loc) (attr : State -> A) : M A :=
  fun w => match heap w !! obj with
           | Some s => (Ok (attr s), w)
           | None => (Raise AttributeError, w)
           end.

(** [obj.attr = v], given as the update of the record. *)
Definition setattr (obj : loc) (upd : State -> State) : M unit :=
  fun w => match heap w !! obj with
           | Some s => (Ok tt, with_heap (<[obj := upd s]> (heap w)) w)
           | None => (Raise AttributeError, w)
           end.

Definition set_time_acc (v : Z) (s : State) : State :=
  mkPhysicsState v (reference s) (target s) (srb_time s) (entities s).
Definition set_reference (v : string) (s : State) : State :=
  mkPhysicsState (time_acc s) v (target s) (srb_time s) (entities s).
Definition set_target (v : string) (s : State) : State :=
  mkPhysicsState (time_acc s) (reference s) v (srb_time s) (entities s).
Definition set_srb_time (v : float) (s : State) : State :=
  mkPhysicsState (time_acc s) (reference s) (target s) v (entities s).

(** *** [load_savefile] *)

(** Lines 157-170: the choice of the decoder by the suffix, and the new
    state object. *)
Definition decode (file : Path) : M loc :=
  if String.eqb (Str.lower (suffix file)) ".rnd" then
    disk ← file_system;
    physics_state ← call (clone_orbitv_state file disk);
    new physics_state
  else
    (if negb (String.eqb (Str.lower (suffix file)) ".json") then
       logging_warning (str file ++ " is not a .json file, trying to load it anyways.")
     else pass);;
    data ← read_text file;
    read_state ← call (json_Parse data);
    new (PhysicsState_init read_state).

(** Lines 172-179: the four repairs, in place. *)
Definition canonicalize (physics_state : loc) : M unit :=
  t ← getattr physics_state time_acc;
  (if Z.eqb t 0 then setattr physics_state (set_time_acc 1) else pass);;
  r ← getattr physics_state reference;
  (if String.eqb r "" then setattr physics_state (set_reference DEFAULT_REFERENCE) else pass);;
  g ← getattr physics_state target;
  (if String.eqb g "" then setattr physics_state (set_target DEFAULT_TARGET) else pass);;
  b ← getattr physics_state srb_time;
  (if float_eq b 0 then setattr physics_state (set_srb_time SRB_FULL) else pass).

Definition load_savefile (file : Path) : M loc :=
  logging_info ("Loading savefile " ++ str (resolve file));;
  physics_state ← decode file;
  canonicalize physics_state;;
  mret physics_state.

(** *** [write_savefile] *)

Definition write_savefile (state : loc) (file : Path) : M Path :=
  let file :=
    if negb (String.eqb (Str.lower (suffix file)) ".json")
    then truediv (parent file) (name file ++ ".json")
    else file in
  logging_info ("Saving to savefile " ++ str (resolve file));;
  open_w file;;
  message ← getattr state as_proto;
  text ← call (MessageToJson message);
  write_text file text;;
  mret file.

(** *** The repairs as a function on the record *)

(** What the four statements of lines 172-179 make of the fields. *)
Definition repair (s : State) : State :=
  let s := if Z.eqb (time_acc s) 0 then set_time_acc 1 s else s in
  let s := if String.eqb (reference s) "" then set_reference DEFAULT_REFERENCE s else s in
  let s := if String.eqb (target s) "" then set_target DEFAULT_TARGET s else s in
  if float_eq (srb_time s) 0 then set_srb_time SRB_FULL s else s.

(** The four invariants of a canonical state. *)
Definition canonical (s : State) : Prop :=
  time_acc s <> 0 /\ reference s <> "" /\ target s <> "" /\ float_eq (srb_time s) 0 = false.

(** The text a file holds, or the state a legacy file decodes to: what
    [decode] hands to the repairs. *)
Definition decoded (file : Path) (w : World) : Result State :=
  if String.eqb (Str.lower (suffix file)) ".rnd" then clone_orbitv_state file (files w)
  else match files w !! file with
       | Some data =>
           match json_Parse data with
           | Ok read_state => Ok (PhysicsState_init read_state)
           | Raise e => Raise e
           end
       | None => Raise (open_r_error file w)
       end.

(** The records one call of [load_savefile] hands to the logger. *)
Definition load_records (file : Path) : list LogRecord :=
  mkLog INFO ("Loading savefile " ++ str (resolve file)) ::
  (if String.eqb (Str.lower (suffix file)) ".rnd" then []
   else if negb (String.eqb (Str.lower (suffix file)) ".json")
        then [mkLog WARNING (str file ++ " is not a .json file, trying to load it anyways.")]
        else []).

(** The path [write_savefile] writes to. *)
Definition target_path (file : Path) : Path :=
  if negb (String.eqb (Str.lower (suffix file)) ".json")
  then truediv (parent file) (name file ++ ".json")
  else file.

End Savefile.

(** ** The other functions of [common.py] *)

(** Lines 118-127, the directory of the program: the directory of the
    executable when frozen by PyInstaller, the working directory under the
    interactive interpreter ([sys.path[0] == '']), the directory [sys.path[0]]
    of the script otherwise. *)
Definition PROGRAM_PATH (frozen : bool) (executable sys_path_0 : string) (cwd : Path) : Path :=
  if frozen then parent (of_str executable)
  else if String.eqb sys_path_0 "" then cwd
  else of_str sys_path_0.

(** [savefile(name)], for a given program directory. *)
Definition savefile (PROGRAM_PATH : Path) (name : string) : Path :=
  truediv (truediv (truediv PROGRAM_PATH "data") "saves") name.

(** The directory of the save files. *)
Definition saves_dir (PROGRAM_PATH : Path) : Path :=
  truediv (truediv PROGRAM_PATH "data") "saves".

(** The line feed of ['\n']. *)
Definition LF : ascii := ascii_of_nat 10.

(** [_dump_profiling_stats()], from the text that
    [yappi.get_func_stats().sort('tsub').print_all(out=yappi_output)] leaves
    in [yappi_output]: each [print(line)] adds one line to the standard
    output.
<<
    for line in yappi_output.getvalue().split('\n')[0:30]:
        print(line)
>> *)
Definition _dump_profiling_stats (yappi_output : string) (stdout : list string) : list string :=
  (stdout ++ firstn 30 (Str.split LF yappi_output))%list.

(** The number of occurrences of a character, [s.count(c)]. *)
Fixpoint count (c : ascii) (s : string) : nat :=
  match s with
  | EmptyString => O
  | String a r => ((if Ascii.eqb a c then 1 else 0) + count c r)%nat
  end.

(** ** A second stand-in, whose encoder and parser agree on the documents *)

Module Archive.

Definition Entity : Type := string.
Definition Message : Type := PhysicsState Entity.

Definition landed : Message := mkPhysicsState 1 "Earth" "AYSE" SRB_FULL [HABITAT; EARTH].
Definition flying : Message := mkPhysicsState 50 "Earth" "AYSE" SRB_EMPTY [HABITAT; AYSE; EARTH].
Definition paused : Message := mkPhysicsState 0 "Sun" "" 3%float [SUN].

Definition parse (data : string) : Result Message :=
  if String.eqb data "{landed}" then Ok landed
  else if String.eqb data "{flying}" then Ok flying
  else if String.eqb data "{paused}" then Ok paused
  else Raise SchemaParseError.

(** States are told apart by their time acceleration; any other state is
    refused by the encoder. *)
Definition encode (m : Message) : Result string :=
  if Z.eqb (time_acc m) 1 then Ok "{landed}"
  else if Z.eqb (time_acc m) 50 then Ok "{flying}"
  else if Z.eqb (time_acc m) 0 then Ok "{paused}"
  else Raise SchemaEncodeError.

#[local] Instance collaborators : Collaborators Entity Message := {|
  resolve p := if root p then p else mkPath true ("opt" :: "orbitx" :: parts p);
  clone_orbitv_state file disk :=
    match disk !! file with
    | Some _ => Raise LegacyFormatError
    | None => Raise FileNotFoundError
    end;
  json_Parse := parse;
  PhysicsState_init m := m;
  as_proto s := s;
  MessageToJson := encode
|}.

Definition install : Path := of_str "/opt/orbitx".

Definition disk : gmap Path string :=
  <[savefile install "landed.json" := "{landed}"]>
  (<[savefile install "paused.json" := "{paused}"]>
  (<[savefile install "old.json" := "{flying}"]>
  (<[savefile install "notes.txt" := "{flying}"]> ∅))).

(** One state object in memory, and a read-only file. *)
Definition world : World Entity :=
  mkWorld disk {[saves_dir install := Directory]} {[savefile install "locked.json"]}
          {[1%positive := flying; 2%positive := mkPhysicsState 7 "Sun" "Module" 3%float []]} [].

End Archive.

(** ** A table-driven stand-in for the collaborators

    Entities are names, the message carries the five fields of the state,
    and a document is known by its text.  The working directory is /home. *)

Module Fake.

Definition Entity : Type := string.
Definition Message : Type := PhysicsState Entity.

Definition unset : Message := mkPhysicsState 0 "" "" 0%float [HABITAT; EARTH].
Definition flying : Message := mkPhysicsState 50 "Earth" "AYSE" SRB_EMPTY [HABITAT; AYSE; EARTH].
Definition odd_speed : Message := mkPhysicsState 7 "Sun" "Module" 3%float [SUN].

Definition documents : list (string * Message) :=
  [ ("{}", unset); ("{flying}", flying); ("{odd_speed}", odd_speed) ].

Fixpoint assoc (key : string) (table : list (string * Message)) : Result Message :=
  match table with
  | [] => Raise SchemaParseError
  | (k, m) :: rest => if String.eqb k key then Ok m else assoc key rest
  end.

(** The legacy reader opens the STARSr file of the directory, then the .rnd
    file itself. *)
Definition read_rnd (file : Path) (disk : gmap Path string) : Result Message :=
  match disk !! truediv (parent file) "STARSr", disk !! file with
  | Some _, Some "ORBIT5S" => Ok flying
  | Some _, Some _ => Raise LegacyFormatError
  | _, _ => Raise FileNotFoundError
  end.

#[local] Instance collaborators : Collaborators Entity Message := {|
  resolve p := if root p then p else mkPath true ("home" :: parts p);
  clone_orbitv_state := read_rnd;
  json_Parse data := assoc data documents;
  PhysicsState_init m := m;
  as_proto s := s;
  MessageToJson m :=
    if String.eqb (reference m) "" then Raise SchemaEncodeError
    else Ok ("{" ++ reference m ++ "," ++ target m ++ "}")
|}.

(** A save directory with one file of each kind. *)
Definition disk : gmap Path string :=
  <[of_str "saves/empty.json" := "{}"]>
  (<[of_str "saves/flying.json" := "{flying}"]>
  (<[of_str "saves/mysave.txt" := "{flying}"]>
  (<[of_str "saves/mysave.json" := "{flying}"]>
  (<[of_str "saves/odd.json" := "{odd_speed}"]>
  (<[of_str "saves/broken.json" := "{"]>
  (<[of_str "saves/STARSr" := "stars"]>
  (<[of_str "saves/OSBACKUP.RND" := "ORBIT5S"]> ∅))))))).

Definition world : World Entity :=
  mkWorld disk {[of_str "saves" := Directory]} {[of_str "/"]} ∅ [].

(** The world after a first load: one state object, at reference 1. *)
Definition loaded (file : string) : World Entity := snd (load_savefile (of_str file) world).

End Fake.

(** ** The legacy reader as the specification describes it *)

Module Legacy.

(** Modelled from the spec: [orbitv_file_interface.clone_orbitv_state] is not
    in [common.py].  Sections 4.2 and 6 of the specification give the
    interface [decode(path) -> CanonicalSnapshot | LegacyFormatError]: the
    reader locates and reads its companion file in the same directory (the
    STARSr file, by the docstring of [load_savefile]) and fails with a
    [LegacyFormatError] if decoding is impossible.  [interpret] stands for
    the reading of the two texts. *)
Definition decode_rnd {Entity : Type}
    (interpret : string -> string -> option (PhysicsState Entity))
    (file : Path) (disk : gmap Path string) : Result (PhysicsState Entity) :=
  match disk !! file, disk !! truediv (parent file) "STARSr" with
  | Some rnd, Some stars =>
      match interpret rnd stars with
      | Some s => Ok s
      | None => Raise LegacyFormatError
      end
  | _, _ => Raise LegacyFormatError
  end.

Definition interpret (rnd stars : string) : option Fake.Message :=
  if String.eqb rnd "ORBIT5S" then Some Fake.flying else None.

(** The collaborators of [Fake], with this reader. *)
#[local] Instance collaborators : Collaborators Fake.Entity Fake.Message := {|
  resolve := @resolve _ _ Fake.collaborators;
  clone_orbitv_state := decode_rnd interpret;
  json_Parse := @json_Parse _ _ Fake.collaborators;
  PhysicsState_init := @PhysicsState_init _ _ Fake.collaborators;
  as_proto := @as_proto _ _ Fake.collaborators;
  MessageToJson := @MessageToJson _ _ Fake.collaborators
|}.

End Legacy.

(** ** Runs of the definitions *)

Example suffix_bak : suffix (of_str "saves/save.bak") = ".bak".
Proof. reflexivity. Qed.
Example suffix_hidden : suffix (of_str ".json") = "".
Proof. reflexivity. Qed.
Example suffix_upper : Str.lower (suffix (of_str "/x/SAVE.JSON")) = ".json".
Proof. reflexivity. Qed.
Example parent_name : parent (of_str "a/./b//c.txt") = of_str "a/b" /\ name (of_str "a/b/c.txt") = "c.txt".
Proof. split; reflexivity. Qed.

Section FakeRuns.

#[local] Existing Instance Fake.collaborators.

Example fake_load_empty :
  fst (load_savefile (of_str "saves/empty.json") Fake.world) = Ok 1%positive
  /\ heap (Fake.loaded "saves/empty.json") !! 1%positive
     = Some (mkPhysicsState 1 "Earth" "AYSE" (-1)%float [HABITAT; EARTH])
  /\ log (Fake.loaded "saves/empty.json")
     = [mkLog INFO "Loading savefile /home/saves/empty.json"].
Proof. vm_compute. repeat split; reflexivity. Qed.

Example fake_load_rnd :
  fst (load_savefile (of_str "saves/OSBACKUP.RND") Fake.world) = Ok 1%positive
  /\ heap (Fake.loaded "saves/OSBACKUP.RND") !! 1%positive = Some Fake.flying.
Proof. vm_compute. split; reflexivity. Qed.

Example fake_load_directory :
  fst (load_savefile (of_str "saves") Fake.world) = Raise IsADirectoryError
  /\ fst (load_savefile (of_str "saves/gone.json") Fake.world) = Raise FileNotFoundError.
Proof. vm_compute. split; reflexivity. Qed.

Example fake_load_broken :
  fst (load_savefile (of_str "saves/broken.json") Fake.world) = Raise SchemaParseError.
Proof. vm_compute. reflexivity. Qed.

Example fake_write :
  fst (write_savefile 1%positive (of_str "saves/save.bak") (Fake.loaded "saves/flying.json"))
  = Ok (of_str "saves/save.bak.json").
Proof. vm_compute. reflexivity. Qed.

End FakeRuns.

(** ** Properties of the path operations *)

Section PathFacts.

Implicit Types (c a : ascii) (x y : string) (p file : Path).

Lemma append_cons a x y : String a x ++ y = String a (x ++ y).
Proof. reflexivity. Qed.

Lemma contains_app c x y : Str.contains c (x ++ y) = Str.contains c x || Str.contains c y.
Proof.
  induction x as [|a x IH]; [reflexivity|].
  rewrite append_cons. cbn. rewrite IH. apply orb_assoc.
Qed.

Lemma split_not_nil c x : Str.split c x <> [].
Proof.
  destruct x as [|a x]; cbn; [discriminate|].
  destruct (Ascii.eqb a c); [discriminate|].
  destruct (Str.split c x); discriminate.
Qed.

Lemma split_pieces c x : Forall (fun y => Str.contains c y = false) (Str.split c x).
Proof.
  induction x as [|a x IH]; cbn.
  - repeat constructor.
  - destruct (Ascii.eqb a c) eqn:E.
    + constructor; [reflexivity | exact IH].
    + destruct (Str.split c x) as [|h t].
      * repeat constructor. cbn. rewrite E. reflexivity.
      * inversion IH; subst. constructor; [|assumption].
        cbn. rewrite E. assumption.
Qed.

Lemma split_whole c x : Str.contains c x = false -> Str.split c x = [x].
Proof.
  induction x as [|a x IH]; cbn; [reflexivity|].
  intros H. apply orb_false_iff in H as [Ha Hx].
  rewrite Ha, (IH Hx). reflexivity.
Qed.

Lemma components_single x : is_component x = true -> components x = [x].
Proof.
  unfold is_component, components. intros H.
  apply andb_true_iff in H as [H Hs]. apply negb_true_iff in Hs.
  rewrite (split_whole _ _ Hs). cbn. rewrite H. reflexivity.
Qed.

Lemma components_wf x : Forall (fun y => is_component y = true) (components x).
Proof.
  unfold components. apply List.Forall_forall. intros y Hy.
  apply filter_In in Hy as [Hin Hy].
  unfold is_component. rewrite Hy. cbn.
  pose proof (split_pieces "/" x) as Hall.
  rewrite List.Forall_forall in Hall. rewrite (Hall y Hin). reflexivity.
Qed.

Lemma wf_truediv p x : wf p -> wf (truediv p x).
Proof.
  unfold wf, truediv. intros Hp.
  destruct (Str.startswith_char "/" x); cbn [parts].
  - apply components_wf.
  - apply List.Forall_app. split; [exact Hp | apply components_wf].
Qed.

Lemma wf_of_str x : wf (of_str x).
Proof. apply wf_truediv. constructor. Qed.

Lemma In_removelast {A} (q : list A) (y : A) : In y (removelast q) -> In y q.
Proof.
  induction q as [|a q IH]; [cbn; tauto|].
  destruct q as [|b q]; [cbn; tauto|].
  change (removelast (a :: b :: q)) with (a :: removelast (b :: q)).
  intros [H|H]; [left; exact H | right; apply IH, H].
Qed.

Lemma wf_parent p : wf p -> wf (parent p).
Proof.
  unfold wf, parent. cbn [parts]. rewrite !List.Forall_forall.
  intros Hp y Hy. apply Hp, In_removelast, Hy.
Qed.

Lemma name_no_sep p : wf p -> Str.contains "/" (name p) = false.
Proof.
  unfold wf, name. intros Hp.
  induction Hp as [|a q Ha Hq IH]; [reflexivity|].
  destruct q as [|b q]; [|exact IH].
  cbn. unfold is_component in Ha.
  apply andb_true_iff in Ha as [_ Ha]. apply negb_true_iff, Ha.
Qed.

Lemma json_name_component x :
  Str.contains "/" x = false -> is_component (x ++ ".json") = true.
Proof.
  intros Hx. unfold is_component. rewrite contains_app, Hx. cbn [orb].
  destruct x as [|a x]; [reflexivity|].
  rewrite append_cons. cbn. destruct (Ascii.eqb a "."); [|reflexivity].
  destruct x; reflexivity.
Qed.

Lemma json_name_relative x :
  Str.contains "/" x = false -> Str.startswith_char "/" (x ++ ".json") = false.
Proof.
  destruct x as [|a x]; [reflexivity|].
  rewrite append_cons. cbn. intros H. apply orb_false_iff in H as [Ha _]. exact Ha.
Qed.

(** For a path that [pathlib] built, [file.parent / (file.name + '.json')]
    replaces the last component by the name followed by '.json'. *)
Lemma parent_truediv_json file :
  wf file ->
  truediv (parent file) (name file ++ ".json")
  = mkPath (root file) (removelast (parts file) ++ [name file ++ ".json"]).
Proof.
  intros Hwf. pose proof (name_no_sep file Hwf) as Hn.
  unfold truediv. rewrite (json_name_relative _ Hn).
  rewrite (components_single _ (json_name_component _ Hn)). reflexivity.
Qed.

Lemma length_append x y : String.length (x ++ y) = (String.length x + String.length y)%nat.
Proof.
  induction x as [|a x IH]; [reflexivity|].
  rewrite append_cons. cbn. rewrite IH. reflexivity.
Qed.

Lemma append_json_longer x : x ++ ".json" <> x.
Proof.
  intros H. apply (f_equal String.length) in H.
  rewrite length_append in H. cbn in H. lia.
Qed.

End PathFacts.

(** ** Properties *)

Section Properties.

Context {Entity PhysicalState : Type} {C : Collaborators Entity PhysicalState}.

#[local] Abbreviation State := (PhysicsState Entity).
#[local] Abbreviation World := (World Entity).

Implicit Types (w : World) (s d : State) (l state : loc) (file : Path).

(** *** The world record *)

Lemma with_heap_same w : with_heap (heap w) w = w.
Proof. destruct w; reflexivity. Qed.

Lemma with_heap_insert_id w l s : heap w !! l = Some s -> with_heap (<[l := s]> (heap w)) w = w.
Proof. intros Hl. rewrite insert_id by exact Hl. apply with_heap_same. Qed.

(** *** One repair statement *)

Lemma repair_step {A B} l (attr : State -> A) (test : A -> bool) (upd : State -> State)
      (rest : M B) w s :
  heap w !! l = Some s ->
  (x ← getattr l attr; (if test x then setattr l upd else pass);; rest) w
  = rest (with_heap (<[l := if test (attr s) then upd s else s]> (heap w)) w).
Proof.
  intros Hl. unfold mbind, M_bind, getattr. rewrite Hl.
  destruct (test (attr s)).
  - unfold setattr. rewrite Hl. reflexivity.
  - unfold pass, mret, M_ret. rewrite with_heap_insert_id by exact Hl. reflexivity.
Qed.

Lemma repair_last {A} l (attr : State -> A) (test : A -> bool) (upd : State -> State) w s :
  heap w !! l = Some s ->
  (x ← getattr l attr; if test x then setattr l upd else pass) w
  = (Ok tt, with_heap (<[l := if test (attr s) then upd s else s]> (heap w)) w).
Proof.
  intros Hl. unfold mbind, M_bind, getattr. rewrite Hl.
  destruct (test (attr s)).
  - unfold setattr. rewrite Hl. reflexivity.
  - unfold pass, mret, M_ret. rewrite with_heap_insert_id by exact Hl. reflexivity.
Qed.

(** [canonicalize] replaces the object by its repaired record. *)
Lemma canonicalize_repair l w s :
  heap w !! l = Some s ->
  canonicalize l w = (Ok tt, with_heap (<[l := repair s]> (heap w)) w).
Proof.
  intros Hl. unfold canonicalize, repair.
  rewrite (repair_step l time_acc (fun t => Z.eqb t 0) _ _ w s Hl).
  set (s1 := if Z.eqb (time_acc s) 0 then set_time_acc 1 s else s).
  rewrite (repair_step l reference (fun r => String.eqb r "") _ _ _ s1)
    by apply lookup_insert_eq.
  set (s2 := if String.eqb (reference s1) "" then set_reference DEFAULT_REFERENCE s1 else s1).
  rewrite (repair_step l target (fun g => String.eqb g "") _ _ _ s2)
    by apply lookup_insert_eq.
  set (s3 := if String.eqb (target s2) "" then set_target DEFAULT_TARGET s2 else s2).
  rewrite (repair_last l srb_time (fun b => float_eq b 0) _ _ s3)
    by apply lookup_insert_eq.
  cbn [heap with_heap files unwritable log]. rewrite !insert_insert_eq. reflexivity.
Qed.

(** On something that is no state object the first read raises. *)
Lemma canonicalize_dangling l w :
  heap w !! l = None -> canonicalize l w = (Raise AttributeError, w).
Proof.
  intros Hl. unfold canonicalize, mbind, M_bind, getattr. rewrite Hl. reflexivity.
Qed.

(** *** [load_savefile] in one equation *)

Lemma decode_eq file w :
  decode file w =
  let w1 := with_log (log w ++ tl (load_records file)) w in
  match decoded file w with
  | Ok d => new d w1
  | Raise e => (Raise e, w1)
  end.
Proof.
  unfold decode, decoded, load_records. cbn [tl].
  destruct (String.eqb (Str.lower (suffix file)) ".rnd").
  - unfold mbind, M_bind, file_system, call. cbn zeta.
    replace (with_log (log w ++ []) w) with w
      by (rewrite app_nil_r; destruct w; reflexivity).
    destruct (clone_orbitv_state file (files w)); reflexivity.
  - unfold mbind, M_bind, read_text, call. cbn zeta.
    destruct (negb (String.eqb (Str.lower (suffix file)) ".json")).
    + unfold logging_warning. cbn [files with_log].
      destruct (files w !! file) as [data|]; [|reflexivity].
      destruct (json_Parse data); reflexivity.
    + unfold pass, mret, M_ret.
      replace (with_log (log w ++ []) w) with w
        by (rewrite app_nil_r; destruct w; reflexivity).
      destruct (files w !! file) as [data|]; [|reflexivity].
      destruct (json_Parse data); reflexivity.
Qed.

Lemma load_savefile_eq file w :
  load_savefile file w =
  let w1 := with_log (log w ++ load_records file) w in
  match decoded file w with
  | Ok d => let l := fresh (dom (heap w)) in
            (Ok l, with_heap (<[l := repair d]> (heap w)) w1)
  | Raise e => (Raise e, w1)
  end.
Proof.
  unfold load_savefile. unfold mbind at 1 2. unfold M_bind at 1 2.
  unfold logging_info. rewrite decode_eq. cbn zeta.
  replace (decoded file (with_log _ w)) with (decoded file w) by reflexivity.
  cbn [log with_log files unwritable heap].
  rewrite <- app_assoc.
  change (log w ++ load_records file)%list
    with (log w ++ [mkLog INFO ("Loading savefile " ++ str (resolve file))]
                ++ tl (load_records file))%list.
  destruct (decoded file w) as [d|e]; [|reflexivity].
  unfold new. cbn [heap with_heap files unwritable log].
  unfold mbind, M_bind.
  rewrite (canonicalize_repair _ _ d) by apply lookup_insert_eq.
  cbn [heap with_heap files unwritable log]. rewrite insert_insert_eq. reflexivity.
Qed.

(** *** The repairs on the record *)

#[local] Ltac fields := cbn [time_acc reference target srb_time entities].

#[local] Ltac repair_fields s :=
  destruct s as [t r g b es];
  unfold repair, set_time_acc, set_reference, set_target, set_srb_time; fields;
  destruct (Z.eqb t 0); fields;
  destruct (String.eqb r ""); fields;
  destruct (String.eqb g ""); fields;
  destruct (float_eq b 0); reflexivity.

Lemma repair_time_acc s :
  time_acc (repair s) = if Z.eqb (time_acc s) 0 then 1 else time_acc s.
Proof. repair_fields s. Qed.

Lemma repair_reference s :
  reference (repair s) = if String.eqb (reference s) "" then DEFAULT_REFERENCE else reference s.
Proof. repair_fields s. Qed.

Lemma repair_target s :
  target (repair s) = if String.eqb (target s) "" then DEFAULT_TARGET else target s.
Proof. repair_fields s. Qed.

Lemma repair_srb_time s :
  srb_time (repair s) = if float_eq (srb_time s) 0 then SRB_FULL else srb_time s.
Proof. repair_fields s. Qed.

Lemma repair_entities s : entities (repair s) = entities s.
Proof. repair_fields s. Qed.

Lemma state_eq s d :
  time_acc s = time_acc d -> reference s = reference d -> target s = target d ->
  srb_time s = srb_time d -> entities s = entities d -> s = d.
Proof. destruct s, d; cbn; intros; subst; reflexivity. Qed.

Lemma repair_canonical s : canonical (repair s).
Proof.
  unfold canonical.
  rewrite repair_time_acc, repair_reference, repair_target, repair_srb_time.
  repeat split.
  - destruct (Z.eqb (time_acc s) 0) eqn:E; [discriminate|]. apply Z.eqb_neq, E.
  - destruct (String.eqb (reference s) "") eqn:E; [discriminate|]. apply String.eqb_neq, E.
  - destruct (String.eqb (target s) "") eqn:E; [discriminate|]. apply String.eqb_neq, E.
  - destruct (float_eq (srb_time s) 0) eqn:E; [reflexivity | exact E].
Qed.

Lemma repair_of_canonical s : canonical s -> repair s = s.
Proof.
  intros (Ht & Hr & Hg & Hb).
  apply state_eq;
    rewrite ?repair_time_acc, ?repair_reference, ?repair_target, ?repair_srb_time,
      ?repair_entities.
  - apply Z.eqb_neq in Ht. rewrite Ht. reflexivity.
  - apply String.eqb_neq in Hr. rewrite Hr. reflexivity.
  - apply String.eqb_neq in Hg. rewrite Hg. reflexivity.
  - rewrite Hb. reflexivity.
  - reflexivity.
Qed.

Lemma repair_idempotent s : repair (repair s) = repair s.
Proof. apply repair_of_canonical, repair_canonical. Qed.

(** *** [write_savefile] in one equation *)

Lemma write_savefile_eq state file w :
  write_savefile state file w =
  let file' := target_path file in
  let w1 := with_log (log w ++ [mkLog INFO ("Saving to savefile " ++ str (resolve file'))]) w in
  if decide (file' ∈ unwritable w) then (Raise OSError, w1)
  else match heap w !! state with
       | None => (Raise AttributeError, with_files (<[file' := ""]> (files w)) w1)
       | Some s =>
           match MessageToJson (as_proto s) with
           | Ok text => (Ok file', with_files (<[file' := text]> (files w)) w1)
           | Raise e => (Raise e, with_files (<[file' := ""]> (files w)) w1)
           end
       end.
Proof.
  unfold write_savefile. fold (target_path file). cbn zeta.
  generalize (target_path file) as file'. intros file'.
  unfold mbind, M_bind, logging_info, open_w, getattr, call, write_text, mret, M_ret.
  cbn [unwritable with_log with_files heap files log].
  destruct (decide (file' ∈ unwritable w)); [reflexivity|].
  cbn [unwritable with_log with_files heap files log].
  destruct (heap w !! state) as [s|]; [|reflexivity].
  destruct (MessageToJson (as_proto s)) as [text|e]; [|reflexivity].
  cbn [unwritable with_log with_files heap files log].
  rewrite insert_insert_eq. reflexivity.
Qed.

Lemma target_path_other file :
  Str.lower (suffix file) <> ".json" ->
  target_path file = truediv (parent file) (name file ++ ".json").
Proof.
  intros H. unfold target_path. apply String.eqb_neq in H. rewrite H. reflexivity.
Qed.

Lemma target_path_json file : Str.lower (suffix file) = ".json" -> target_path file = file.
Proof.
  intros H. unfold target_path. apply String.eqb_eq in H. rewrite H. reflexivity.
Qed.

(** *** Loading *)

(** C1. Whenever [load_savefile] returns, through the legacy reader or
    through the JSON codec, the state object it returns has a time
    acceleration other than 0, a reference and a target other than the empty
    string, and an SRB timer that does not compare equal to 0. *)
Theorem load_savefile_canonical file w l w' :
  load_savefile file w = (Ok l, w') ->
  exists s, heap w' !! l = Some s /\
    time_acc s <> 0 /\ reference s <> "" /\ target s <> "" /\
    float_eq (srb_time s) 0 = false.
Proof.
  rewrite load_savefile_eq. cbn zeta.
  destruct (decoded file w) as [d|e]; [|discriminate].
  intros [= <- <-]. exists (repair d). split.
  - cbn [heap with_heap]. apply lookup_insert_eq.
  - apply repair_canonical.
Qed.

(** C2. When the decoded document has all four scalars unset (time
    acceleration 0, empty reference, empty target, SRB timer equal to 0),
    the loaded state has time acceleration 1, reference 'Earth', target
    'AYSE' and SRB timer [SRB_FULL], that is -1, and the entities of the
    document; files on disk and other objects are as before. *)
Theorem load_savefile_fills_defaults file w d :
  decoded file w = Ok d ->
  time_acc d = 0 -> reference d = "" -> target d = "" ->
  float_eq (srb_time d) 0 = true ->
  exists l w',
    load_savefile file w = (Ok l, w') /\
    heap w' !! l = Some (mkPhysicsState 1 "Earth" "AYSE" (-1)%float (entities d)) /\
    DEFAULT_REFERENCE = "Earth" /\ DEFAULT_TARGET = "AYSE" /\ SRB_FULL = (-1)%float /\
    files w' = files w /\
    (forall l', l' <> l -> heap w' !! l' = heap w !! l').
Proof.
  intros Hd Ht Hr Hg Hb. rewrite load_savefile_eq, Hd. cbn zeta.
  eexists _, _. split; [reflexivity|]. cbn [heap files with_heap with_log].
  repeat split.
  - rewrite lookup_insert_eq. f_equal. apply state_eq; fields.
    + rewrite repair_time_acc, Ht. reflexivity.
    + rewrite repair_reference, Hr. reflexivity.
    + rewrite repair_target, Hg. reflexivity.
    + rewrite repair_srb_time, Hb. reflexivity.
    + apply repair_entities.
  - intros l' Hl'. apply lookup_insert_ne. congruence.
Qed.

(** C3. Running the four repairs a second time changes nothing: on the
    object in place, on the record, and because none of the four defaults is
    the unset value of its field. *)
Theorem canonicalize_idempotent :
  (forall l w, (canonicalize l;; canonicalize l) w = canonicalize l w) /\
  (forall s, repair (repair s) = repair s) /\
  Z.eqb 1 0 = false /\ String.eqb DEFAULT_REFERENCE "" = false /\
  String.eqb DEFAULT_TARGET "" = false /\ float_eq SRB_FULL 0 = false.
Proof.
  split; [|split; [apply repair_idempotent | repeat split]].
  intros l w. unfold mbind, M_bind.
  destruct (heap w !! l) as [s|] eqn:Hl.
  - rewrite (canonicalize_repair l w s Hl).
    rewrite (canonicalize_repair l _ (repair s)) by apply lookup_insert_eq.
    cbn [heap with_heap files unwritable log].
    rewrite insert_insert_eq, repair_idempotent. reflexivity.
  - rewrite (canonicalize_dangling l w Hl). reflexivity.
Qed.

(** C4. A field of the decoded document that is not the unset value of its
    field is returned as decoded, and the entities always are; a document
    without unset scalar, such as time acceleration 50, reference 'Earth',
    target 'AYSE' and SRB timer [SRB_EMPTY] (-2), is returned unmodified. *)
Theorem load_savefile_keeps_set_values file w d :
  decoded file w = Ok d ->
  exists l w' s,
    load_savefile file w = (Ok l, w') /\ heap w' !! l = Some s /\
    (time_acc d <> 0 -> time_acc s = time_acc d) /\
    (reference d <> "" -> reference s = reference d) /\
    (target d <> "" -> target s = target d) /\
    (float_eq (srb_time d) 0 = false -> srb_time s = srb_time d) /\
    entities s = entities d /\
    (forall es, d = mkPhysicsState 50 "Earth" "AYSE" (-2)%float es -> s = d) /\
    SRB_EMPTY = (-2)%float.
Proof.
  intros Hd. rewrite load_savefile_eq, Hd. cbn zeta.
  eexists _, _, (repair d). split; [reflexivity|].
  cbn [heap with_heap]. split; [apply lookup_insert_eq|].
  repeat split.
  - intros H. apply Z.eqb_neq in H. rewrite repair_time_acc, H. reflexivity.
  - intros H. apply String.eqb_neq in H. rewrite repair_reference, H. reflexivity.
  - intros H. apply String.eqb_neq in H. rewrite repair_target, H. reflexivity.
  - intros H. rewrite repair_srb_time, H. reflexivity.
  - apply repair_entities.
  - intros es ->. reflexivity.
Qed.

(** C6. A file whose suffix is neither '.rnd' nor '.json' is read and parsed
    like a '.json' file of the same text: both loads return, the two state
    objects hold the same record, and the only difference is the warning in
    the log. *)
Theorem load_savefile_unknown_suffix f1 f2 w1 w2 data m :
  Str.lower (suffix f1) <> ".rnd" -> Str.lower (suffix f1) <> ".json" ->
  Str.lower (suffix f2) = ".json" ->
  files w1 !! f1 = Some data -> files w2 !! f2 = Some data ->
  json_Parse data = Ok m ->
  exists l1 w1' l2 w2' s,
    load_savefile f1 w1 = (Ok l1, w1') /\ load_savefile f2 w2 = (Ok l2, w2') /\
    heap w1' !! l1 = Some s /\ heap w2' !! l2 = Some s /\
    log w1' = (log w1 ++
      [mkLog INFO ("Loading savefile " ++ str (resolve f1));
       mkLog WARNING (str f1 ++ " is not a .json file, trying to load it anyways.")])%list /\
    log w2' = (log w2 ++ [mkLog INFO ("Loading savefile " ++ str (resolve f2))])%list /\
    files w1' = files w1 /\ files w2' = files w2 /\
    (heap w1 = heap w2 -> l1 = l2 /\ heap w1' = heap w2').
Proof.
  intros Hrnd Hjson H2 Hf1 Hf2 Hm.
  apply String.eqb_neq in Hrnd, Hjson.
  assert (H2' : String.eqb (Str.lower (suffix f2)) ".rnd" = false)
    by (rewrite H2; reflexivity).
  apply String.eqb_eq in H2.
  rewrite !load_savefile_eq. unfold decoded, load_records.
  rewrite Hrnd, Hjson, H2, H2', Hf1, Hf2, Hm. cbn zeta. cbn [negb].
  eexists _, _, _, _, (repair (PhysicsState_init m)).
  split; [reflexivity|]. split; [reflexivity|].
  cbn [heap files log with_heap with_log].
  repeat split; try apply lookup_insert_eq.
  - rewrite H. reflexivity.
  - rewrite H. reflexivity.
Qed.


(** C8, as the code has it. The time acceleration of a loaded state is the
    decoded one, with 0 replaced by 1: it is never 0, and a decoded value
    outside [TIME_ACCS] is returned as it is. *)
Theorem load_savefile_time_acc file w l w' :
  load_savefile file w = (Ok l, w') ->
  exists d s, decoded file w = Ok d /\ heap w' !! l = Some s /\
    time_acc s = (if Z.eqb (time_acc d) 0 then 1 else time_acc d) /\
    time_acc s <> 0.
Proof.
  rewrite load_savefile_eq. cbn zeta.
  destruct (decoded file w) as [d|e]; [|discriminate].
  intros [= <- <-]. exists d, (repair d). split; [reflexivity|].
  cbn [heap with_heap]. split; [apply lookup_insert_eq|].
  split; [apply repair_time_acc | apply repair_canonical].
Qed.

(** *** Writing *)

(** C5. For a path whose lowered suffix is not '.json', [write_savefile]
    writes to the path of the same directory whose name is the whole name
    followed by '.json', and returns that path, which differs from the one
    given; no other file changes, the given path included. *)
Theorem write_savefile_appends_json state file w :
  wf file -> Str.lower (suffix file) <> ".json" ->
  let file' := mkPath (root file) (removelast (parts file) ++ [name file ++ ".json"]) in
  name file' = name file ++ ".json" /\ parent file' = parent file /\ file' <> file /\
  (forall p w', write_savefile state file w = (Ok p, w') -> p = file') /\
  (forall s text,
     heap w !! state = Some s -> MessageToJson (as_proto s) = Ok text ->
     file' ∉ unwritable w ->
     exists w', write_savefile state file w = (Ok file', w') /\
       files w' !! file' = Some text) /\
  (forall q, q <> file' ->
     files (snd (write_savefile state file w)) !! q = files w !! q).
Proof.
  intros Hwf Hsuffix file'.
  assert (Htarget : target_path file = file').
  { rewrite (target_path_other _ Hsuffix). apply parent_truediv_json, Hwf. }
  assert (Hname : name file' = name file ++ ".json").
  { unfold name, file'. cbn [parts]. apply last_last. }
  split; [exact Hname|]. split; [|split].
  - unfold parent, file'. cbn [root parts]. rewrite removelast_last. reflexivity.
  - intros Heq. rewrite Heq in Hname. symmetry in Hname.
    exact (append_json_longer _ Hname).
  - rewrite write_savefile_eq, Htarget. cbn zeta. repeat split.
    + intros p w'. destruct (decide (file' ∈ unwritable w)); [discriminate|].
      destruct (heap w !! state) as [s|]; [|discriminate].
      destruct (MessageToJson (as_proto s)); [|discriminate].
      intros [= <- _]. reflexivity.
    + intros s text Hs Htext Hw. rewrite Hs, Htext.
      destruct (decide (file' ∈ unwritable w)); [contradiction|].
      eexists. split; [reflexivity|]. cbn [files with_files]. apply lookup_insert_eq.
    + intros q Hq. destruct (decide (file' ∈ unwritable w)); [reflexivity|].
      destruct (heap w !! state) as [s|];
        [destruct (MessageToJson (as_proto s))|];
        cbn [snd files with_files]; apply lookup_insert_ne; congruence.
Qed.

(** C9. [write_savefile] leaves every state object as it was, whether it
    returns or raises: the state it is given is read for its encoding and
    not repaired. *)
Theorem write_savefile_keeps_state state file w :
  heap (snd (write_savefile state file w)) = heap w.
Proof.
  rewrite write_savefile_eq. cbn zeta.
  destruct (decide (target_path file ∈ unwritable w)); [reflexivity|].
  destruct (heap w !! state) as [s|]; [|reflexivity].
  destruct (MessageToJson (as_proto s)); reflexivity.
Qed.

(** C10. For a path whose suffix lowers to '.json', whatever its case,
    [write_savefile] writes to the given path and returns it; no other file
    changes. *)
Theorem write_savefile_json_suffix state file w :
  Str.lower (suffix file) = ".json" ->
  (forall p w', write_savefile state file w = (Ok p, w') -> p = file) /\
  (forall s text,
     heap w !! state = Some s -> MessageToJson (as_proto s) = Ok text ->
     file ∉ unwritable w ->
     exists w', write_savefile state file w = (Ok file, w') /\
       files w' !! file = Some text) /\
  (forall q, q <> file ->
     files (snd (write_savefile state file w)) !! q = files w !! q).
Proof.
  intros Hsuffix. rewrite write_savefile_eq, (target_path_json _ Hsuffix). cbn zeta.
  repeat split.
  - intros p w'. destruct (decide (file ∈ unwritable w)); [discriminate|].
    destruct (heap w !! state) as [s|]; [|discriminate].
    destruct (MessageToJson (as_proto s)); [|discriminate].
    intros [= <- _]. reflexivity.
  - intros s text Hs Htext Hw. rewrite Hs, Htext.
    destruct (decide (file ∈ unwritable w)); [contradiction|].
    eexists. split; [reflexivity|]. cbn [files with_files]. apply lookup_insert_eq.
  - intros q Hq. destruct (decide (file ∈ unwritable w)); [reflexivity|].
    destruct (heap w !! state) as [s|];
      [destruct (MessageToJson (as_proto s))|];
      cbn [snd files with_files]; apply lookup_insert_ne; congruence.
Qed.

End Properties.

(** ** Further properties of the path operations *)

Section SuffixFacts.

Implicit Types (c a : ascii) (x y : string) (p file : Path).

Lemma rfind_app c x y :
  Str.rfind c (x ++ y) =
  match Str.rfind c y with
  | Some i => Some (String.length x + i)%nat
  | None => Str.rfind c x
  end.
Proof.
  induction x as [|a x IH].
  { change ("" ++ y) with y. destruct (Str.rfind c y); reflexivity. }
  rewrite append_cons. cbn [Str.rfind String.length]. rewrite IH.
  destruct (Str.rfind c y); reflexivity.
Qed.

Lemma drop_app_length x y : Str.drop (String.length x) (x ++ y) = y.
Proof. induction x as [|a x IH]; [reflexivity | rewrite append_cons; exact IH]. Qed.

Lemma lower_app x y : Str.lower (x ++ y) = Str.lower x ++ Str.lower y.
Proof.
  induction x as [|a x IH]; [reflexivity|].
  rewrite append_cons. cbn [Str.lower]. rewrite IH. reflexivity.
Qed.

(** The suffix of a name that ends in '.json', unless nothing precedes it. *)
Lemma suffix_json_name r q x :
  x <> "" -> suffix (mkPath r (q ++ [x ++ ".json"])) = ".json".
Proof.
  intros Hx. unfold suffix, name. cbn [parts]. rewrite last_last.
  rewrite rfind_app. change (Str.rfind "." ".json") with (Some 0%nat). cbv beta iota.
  rewrite Nat.add_0_r, length_append. change (String.length ".json") with 5%nat.
  assert (Hlen : (0 < String.length x)%nat) by (destruct x; [contradiction | cbn; lia]).
  assert (H1 : (0 <? String.length x)%nat = true) by (apply Nat.ltb_lt; lia).
  assert (H2 : (String.length x <? String.length x + 5 - 1)%nat = true)
    by (apply Nat.ltb_lt; lia).
  rewrite H1, H2. cbn [andb]. apply drop_app_length.
Qed.

Lemma suffix_name_empty p : name p = "" -> suffix p = "".
Proof. unfold suffix. intros ->. reflexivity. Qed.

Lemma wf_nameless p : wf p -> name p = "" -> parts p = [].
Proof.
  unfold wf, name. intros Hwf Hn.
  destruct (parts p) as [|a q] using rev_ind; [reflexivity|].
  rewrite last_last in Hn. subst a.
  apply List.Forall_app in Hwf as [_ Hwf]. inversion Hwf; discriminate.
Qed.

Lemma target_path_of_name file :
  wf file -> Str.lower (suffix file) <> ".json" ->
  target_path file = mkPath (root file) (removelast (parts file) ++ [name file ++ ".json"]).
Proof.
  intros Hwf Hs. rewrite (target_path_other _ Hs). apply parent_truediv_json, Hwf.
Qed.

Lemma wf_target_path file : wf file -> wf (target_path file).
Proof.
  intros Hwf. unfold target_path.
  destruct (negb _); [|exact Hwf]. apply wf_truediv, wf_parent, Hwf.
Qed.

Lemma target_path_nameless_eq file :
  wf file -> name file = "" -> target_path file = mkPath (root file) [".json"].
Proof.
  intros Hwf Hn. pose proof (wf_nameless _ Hwf Hn) as Hp.
  rewrite target_path_of_name; [|exact Hwf|].
  - rewrite Hn, Hp. reflexivity.
  - rewrite (suffix_name_empty _ Hn). discriminate.
Qed.

End SuffixFacts.

(** ** Further properties of loading and writing *)

Section FurtherProperties.

Context {Entity PhysicalState : Type} {C : Collaborators Entity PhysicalState}.

#[local] Abbreviation State := (PhysicsState Entity).
#[local] Abbreviation World := (World Entity).

Implicit Types (w : World) (s d : State) (l state : loc) (file p : Path).

(** *** Helpers *)

Lemma target_path_suffix file :
  wf file ->
  Str.lower (suffix (target_path file)) = if String.eqb (name file) "" then "" else ".json".
Proof.
  intros Hwf. destruct (String.eqb (name file) "") eqn:En.
  - apply String.eqb_eq in En. pose proof (wf_nameless _ Hwf En) as Hp.
    rewrite target_path_of_name; [|exact Hwf|].
    + rewrite En, Hp. reflexivity.
    + rewrite (suffix_name_empty _ En). discriminate.
  - apply String.eqb_neq in En.
    destruct (String.eqb (Str.lower (suffix file)) ".json") eqn:E.
    + apply String.eqb_eq in E. rewrite (target_path_json _ E). exact E.
    + apply String.eqb_neq in E. rewrite (target_path_of_name _ Hwf E).
      rewrite (suffix_json_name _ _ _ En). reflexivity.
Qed.

Lemma target_path_not_rnd file :
  wf file -> String.eqb (Str.lower (suffix (target_path file))) ".rnd" = false.
Proof.
  intros Hwf. rewrite (target_path_suffix _ Hwf).
  destruct (String.eqb (name file) ""); reflexivity.
Qed.

Lemma parent_target_path file : wf file -> parent (target_path file) = parent file.
Proof.
  intros Hwf. destruct (String.eqb (Str.lower (suffix file)) ".json") eqn:E.
  - apply String.eqb_eq in E. rewrite (target_path_json _ E). reflexivity.
  - apply String.eqb_neq in E. rewrite (target_path_of_name _ Hwf E).
    unfold parent. cbn [root parts]. rewrite removelast_last. reflexivity.
Qed.

Lemma name_target_path file :
  wf file -> name (target_path file) = name file \/ name (target_path file) = name file ++ ".json".
Proof.
  intros Hwf. destruct (String.eqb (Str.lower (suffix file)) ".json") eqn:E.
  - apply String.eqb_eq in E. rewrite (target_path_json _ E). left. reflexivity.
  - apply String.eqb_neq in E. rewrite (target_path_of_name _ Hwf E).
    right. unfold name. cbn [parts]. apply last_last.
Qed.

(** What a returned path tells about the call. *)
Lemma write_savefile_Ok state file w p w' :
  write_savefile state file w = (Ok p, w') ->
  exists s text,
    heap w !! state = Some s /\ MessageToJson (as_proto s) = Ok text /\
    (target_path file ∉ unwritable w) /\ p = target_path file /\
    files w' = <[target_path file := text]> (files w) /\ heap w' = heap w.
Proof.
  rewrite write_savefile_eq. cbn zeta.
  destruct (decide (target_path file ∈ unwritable w)) as [|Hw]; [discriminate|].
  destruct (heap w !! state) as [s|]; [|discriminate].
  destruct (MessageToJson (as_proto s)) as [text|] eqn:Ht; [|discriminate].
  intros [= <- <-]. exists s, text. repeat split; assumption.
Qed.

Lemma load_savefile_Ok file w l w' :
  load_savefile file w = (Ok l, w') ->
  exists d, decoded file w = Ok d /\ l = fresh (dom (heap w)) /\
    heap w' = <[l := repair d]> (heap w) /\ files w' = files w.
Proof.
  rewrite load_savefile_eq. cbn zeta.
  destruct (decoded file w) as [d|]; [|discriminate].
  intros [= <- <-]. exists d. repeat split.
Qed.

Lemma fresh_loc_unused w : heap w !! fresh (dom (heap w)) = None.
Proof. apply not_elem_of_dom, is_fresh. Qed.

(** *** Loading *)

(** X3. Whether it returns or raises, [load_savefile] leaves the files on
    disk and every state object that existed before the call as they were. *)
Theorem load_savefile_only_reads file w :
  files (snd (load_savefile file w)) = files w /\
  unwritable (snd (load_savefile file w)) = unwritable w /\
  (forall l, is_Some (heap w !! l) -> heap (snd (load_savefile file w)) !! l = heap w !! l).
Proof.
  rewrite load_savefile_eq. cbn zeta.
  destruct (decoded file w) as [d|e]; cbn [snd files unwritable heap with_heap with_log];
    repeat split; try reflexivity.
  intros l [s Hl]. apply lookup_insert_ne. intros <-.
  rewrite fresh_loc_unused in Hl. discriminate.
Qed.

(** X4. Every call logs the INFO record with the resolved path first; for a
    suffix that is neither '.rnd' nor '.json' the WARNING follows, before the
    file is opened, so it is logged also when the load then raises.  Nothing
    else is logged. *)
Theorem load_savefile_log file w :
  log (snd (load_savefile file w)) =
  (log w ++
   mkLog INFO ("Loading savefile " ++ str (resolve file)) ::
   (if String.eqb (Str.lower (suffix file)) ".rnd" || String.eqb (Str.lower (suffix file)) ".json"
    then []
    else [mkLog WARNING (str file ++ " is not a .json file, trying to load it anyways.")]))%list.
Proof.
  rewrite load_savefile_eq. cbn zeta. unfold load_records.
  destruct (decoded file w); cbn [snd log with_heap with_log];
    destruct (String.eqb (Str.lower (suffix file)) ".rnd");
    destruct (String.eqb (Str.lower (suffix file)) ".json"); reflexivity.
Qed.

(** X5. The object a load returns is new: its reference was not in use
    before, and the objects after the load are the old ones and this one. *)
Theorem load_savefile_fresh file w l w' :
  load_savefile file w = (Ok l, w') ->
  heap w !! l = None /\ dom (heap w') = {[l]} ∪ dom (heap w).
Proof.
  intros H. apply load_savefile_Ok in H as (d & _ & -> & -> & _).
  split; [apply fresh_loc_unused | apply dom_insert_L].
Qed.

(** X6. Loading the same file again succeeds and returns a second object,
    at another reference, holding the same record; the first object is not
    touched by the second load. *)
Theorem load_savefile_again file w l1 w1 :
  load_savefile file w = (Ok l1, w1) ->
  exists l2 w2 s,
    load_savefile file w1 = (Ok l2, w2) /\ l2 <> l1 /\
    heap w1 !! l1 = Some s /\ heap w2 !! l1 = Some s /\ heap w2 !! l2 = Some s.
Proof.
  intros H. apply load_savefile_Ok in H as (d & Hd & Hl & Hh & Hf).
  assert (Hd1 : decoded file w1 = Ok d).
  { unfold decoded in *. rewrite Hf.
    destruct (String.eqb (Str.lower (suffix file)) ".rnd"); [exact Hd|].
    destruct (files w !! file); [exact Hd | discriminate]. }
  assert (H1 : heap w1 !! l1 = Some (repair d)).
  { rewrite Hh. apply lookup_insert_eq. }
  rewrite load_savefile_eq, Hd1. cbn zeta.
  assert (Hne : fresh (dom (heap w1)) <> l1).
  { intros E. pose proof (fresh_loc_unused w1) as Hn. rewrite E, H1 in Hn. discriminate. }
  eexists _, _, (repair d). split; [reflexivity|].
  cbn [heap with_heap with_log]. repeat split.
  - exact Hne.
  - exact H1.
  - rewrite lookup_insert_ne by exact Hne. exact H1.
  - apply lookup_insert_eq.
Qed.

(** X7. When the time acceleration of the decoded state is one of the values
    of [TIME_ACCS], the loaded state has one of the values other than the
    pause: a save made while paused comes back running at 1. *)
Theorem load_savefile_time_acc_in_table file w l w' d :
  load_savefile file w = (Ok l, w') -> decoded file w = Ok d ->
  In (time_acc d) (List.map value TIME_ACCS) ->
  exists s, heap w' !! l = Some s /\ In (time_acc s) allowed_time_accs.
Proof.
  intros H Hd Hin. apply load_savefile_Ok in H as (d' & Hd' & _ & Hh & _).
  rewrite Hd in Hd'. injection Hd' as <-.
  exists (repair d). split; [rewrite Hh; apply lookup_insert_eq|].
  rewrite repair_time_acc. destruct (Z.eqb (time_acc d) 0) eqn:E.
  - left. reflexivity.
  - unfold allowed_time_accs. apply filter_In. split; [exact Hin|]. rewrite E. reflexivity.
Qed.

(** *** Writing *)

(** X1. The path that a save of a named path returns has the lowered suffix
    '.json', and a save to it returns it: the file can be loaded without a
    warning and saved again under the same path. *)
Theorem write_savefile_returns_json_path state file w p w' :
  wf file -> name file <> "" ->
  write_savefile state file w = (Ok p, w') ->
  Str.lower (suffix p) = ".json" /\
  (forall state' w2 q w3, write_savefile state' p w2 = (Ok q, w3) -> q = p).
Proof.
  intros Hwf Hn H. apply write_savefile_Ok in H as (_ & _ & _ & _ & _ & -> & _).
  assert (Hs : Str.lower (suffix (target_path file)) = ".json").
  { rewrite (target_path_suffix _ Hwf). apply String.eqb_neq in Hn. rewrite Hn. reflexivity. }
  split; [exact Hs|]. intros state' w2 q w3 H.
  apply write_savefile_Ok in H as (_ & _ & _ & _ & _ & -> & _).
  apply target_path_json, Hs.
Qed.

(** X2. A path without a name ([Path('.')], [Path('/')]) is saved as the
    hidden file '.json' of that directory.  That name has no suffix, so a
    save to the returned path appends again and writes '.json.json'. *)
Theorem write_savefile_nameless state file w p w' :
  wf file -> name file = "" ->
  write_savefile state file w = (Ok p, w') ->
  p = mkPath (root file) [".json"] /\ suffix p = "" /\
  (forall state' w2 q w3,
     write_savefile state' p w2 = (Ok q, w3) -> q = mkPath (root file) [".json.json"]).
Proof.
  intros Hwf Hn H. apply write_savefile_Ok in H as (_ & _ & _ & _ & _ & -> & _).
  rewrite (target_path_nameless_eq _ Hwf Hn).
  split; [reflexivity|]. split; [reflexivity|]. intros state' w2 q w3 H.
  apply write_savefile_Ok in H as (_ & _ & _ & _ & _ & -> & _). reflexivity.
Qed.

(** X8. When the target path cannot be opened for writing,
    [write_savefile] raises the error of [open] after logging, and no file
    has changed. *)
Theorem write_savefile_refused state file w :
  target_path file ∈ unwritable w ->
  fst (write_savefile state file w) = Raise OSError /\
  files (snd (write_savefile state file w)) = files w.
Proof.
  intros Hw. rewrite write_savefile_eq. cbn zeta.
  destruct (decide (target_path file ∈ unwritable w)); [|contradiction].
  split; reflexivity.
Qed.

(** X9. The file is opened, and so emptied, before the state is encoded:
    when the call raises after [open] succeeded (the encoder raises, or the
    state has no [as_proto]), the target file exists and is empty, whatever
    it held before; no other file changes. *)
Theorem write_savefile_failure_truncates state file w e w' :
  write_savefile state file w = (Raise e, w') ->
  (target_path file ∉ unwritable w) ->
  files w' = <[target_path file := ""]> (files w) /\
  files w' !! target_path file = Some "".
Proof.
  rewrite write_savefile_eq. cbn zeta. intros H Hw.
  destruct (decide (target_path file ∈ unwritable w)); [contradiction|].
  assert (Hf : files w' = <[target_path file := ""]> (files w)).
  { destruct (heap w !! state) as [s|];
      [destruct (MessageToJson (as_proto s)); [discriminate|]|];
      injection H as _ <-; reflexivity. }
  split; [exact Hf | rewrite Hf; apply lookup_insert_eq].
Qed.

(** X10. In every outcome [write_savefile] logs one INFO record, and it
    names the resolved path that is written, not the path given. *)
Theorem write_savefile_log state file w :
  log (snd (write_savefile state file w)) =
  (log w ++ [mkLog INFO ("Saving to savefile " ++ str (resolve (target_path file)))])%list.
Proof.
  rewrite write_savefile_eq. cbn zeta.
  destruct (decide (target_path file ∈ unwritable w)); [reflexivity|].
  destruct (heap w !! state) as [s|]; [|reflexivity].
  destruct (MessageToJson (as_proto s)); reflexivity.
Qed.

(** *** Writing, then loading *)

(** X11. When the parser reads back what the encoder wrote for a state,
    loading the path that [write_savefile] returned succeeds and gives a new
    object that holds the repaired state; the state that was written stays
    as it was, and a state without unset field is read back unchanged. *)
Theorem write_then_load state file w s text m p w1 :
  wf file ->
  heap w !! state = Some s ->
  MessageToJson (as_proto s) = Ok text ->
  json_Parse text = Ok m -> PhysicsState_init m = s ->
  write_savefile state file w = (Ok p, w1) ->
  exists l w2,
    load_savefile p w1 = (Ok l, w2) /\ l <> state /\
    heap w2 !! l = Some (repair s) /\ heap w2 !! state = Some s /\
    (canonical s -> heap w2 !! l = Some s).
Proof.
  intros Hwf Hs Htext Hm Hinit Hwrite.
  apply write_savefile_Ok in Hwrite as (s' & text' & Hs' & Htext' & _ & -> & Hf & Hh).
  rewrite Hs in Hs'. injection Hs' as <-.
  rewrite Htext in Htext'. injection Htext' as <-.
  assert (Hd : decoded (target_path file) w1 = Ok s).
  { unfold decoded. rewrite (target_path_not_rnd _ Hwf), Hf, lookup_insert_eq, Hm, Hinit.
    reflexivity. }
  rewrite load_savefile_eq, Hd. cbn zeta.
  assert (Hne : fresh (dom (heap w1)) <> state).
  { intros E. pose proof (fresh_loc_unused w1) as Hn. rewrite E, Hh, Hs in Hn. discriminate. }
  eexists _, _. split; [reflexivity|]. cbn [heap with_heap with_log].
  split; [exact Hne|]. split; [apply lookup_insert_eq|]. split.
  - rewrite lookup_insert_ne by exact Hne. rewrite Hh. exact Hs.
  - intros Hc. rewrite lookup_insert_eq, (repair_of_canonical _ Hc). reflexivity.
Qed.

(** X12. A loaded state survives a save and a reload: when the parser reads
    back what the encoder wrote for the loaded record, loading the path
    returned by [write_savefile] gives a third object with exactly the record
    of the first load. *)
Theorem load_write_load file w l w1 s out text m p w2 :
  wf out ->
  load_savefile file w = (Ok l, w1) -> heap w1 !! l = Some s ->
  MessageToJson (as_proto s) = Ok text ->
  json_Parse text = Ok m -> PhysicsState_init m = s ->
  write_savefile l out w1 = (Ok p, w2) ->
  exists l' w3,
    load_savefile p w2 = (Ok l', w3) /\ l' <> l /\
    heap w3 !! l' = Some s /\ heap w3 !! l = Some s.
Proof.
  intros Hwf Hload Hs Htext Hm Hinit Hwrite.
  assert (Hc : canonical s).
  { apply load_savefile_Ok in Hload as (d & _ & _ & Hh & _).
    rewrite Hh, lookup_insert_eq in Hs. injection Hs as <-. apply repair_canonical. }
  apply write_savefile_Ok in Hwrite as (s' & text' & Hs' & Htext' & _ & -> & Hf & Hh).
  rewrite Hs in Hs'. injection Hs' as <-.
  rewrite Htext in Htext'. injection Htext' as <-.
  assert (Hd : decoded (target_path out) w2 = Ok s).
  { unfold decoded. rewrite (target_path_not_rnd _ Hwf), Hf, lookup_insert_eq, Hm, Hinit.
    reflexivity. }
  rewrite load_savefile_eq, Hd. cbn zeta.
  assert (Hne : fresh (dom (heap w2)) <> l).
  { intros E. pose proof (fresh_loc_unused w2) as Hn. rewrite E, Hh, Hs in Hn. discriminate. }
  eexists _, _. split; [reflexivity|]. cbn [heap with_heap with_log].
  split; [exact Hne|]. split.
  - rewrite lookup_insert_eq, (repair_of_canonical _ Hc). reflexivity.
  - rewrite lookup_insert_ne by exact Hne. rewrite Hh. exact Hs.
Qed.

(** *** [savefile] *)

Lemma component_relative x : is_component x = true -> Str.startswith_char "/" x = false.
Proof.
  unfold is_component. intros H. apply andb_true_iff in H as [_ H].
  apply negb_true_iff in H. destruct x as [|a x]; [reflexivity|].
  cbn in H. apply orb_false_iff in H as [Ha _]. exact Ha.
Qed.

Lemma saves_dir_parts P : saves_dir P = mkPath (root P) (parts P ++ ["data"; "saves"]).
Proof.
  unfold saves_dir, truediv. cbn [Str.startswith_char Ascii.eqb Bool.eqb root parts].
  change (components "data") with ["data"]. change (components "saves") with ["saves"].
  rewrite <- app_assoc. reflexivity.
Qed.

Lemma savefile_parts P x :
  is_component x = true ->
  savefile P x = mkPath (root P) (parts P ++ ["data"; "saves"; x]).
Proof.
  intros Hx. change (savefile P x) with (truediv (saves_dir P) x).
  rewrite saves_dir_parts. unfold truediv.
  rewrite (component_relative _ Hx), (components_single _ Hx). cbn [root parts].
  rewrite <- app_assoc. reflexivity.
Qed.

Lemma savefile_name P x : is_component x = true -> name (savefile P x) = x.
Proof.
  intros Hx. rewrite (savefile_parts _ _ Hx). unfold name. cbn [parts].
  change (parts P ++ ["data"; "saves"; x])%list
    with (parts P ++ ["data"; "saves"] ++ [x])%list.
  rewrite app_assoc. apply last_last.
Qed.

Lemma savefile_parent P x : is_component x = true -> parent (savefile P x) = saves_dir P.
Proof.
  intros Hx. rewrite (savefile_parts _ _ Hx), saves_dir_parts. unfold parent. cbn [root parts].
  change (parts P ++ ["data"; "saves"; x])%list
    with (parts P ++ ["data"; "saves"] ++ [x])%list.
  rewrite app_assoc, removelast_last. reflexivity.
Qed.

(** X13. For a name that is one path component, [savefile] is the file of
    that name in the directory data/saves of the program directory. *)
Theorem savefile_plain_name P x :
  is_component x = true ->
  name (savefile P x) = x /\ parent (savefile P x) = saves_dir P /\
  parts (savefile P x) = (parts P ++ ["data"; "saves"; x])%list /\
  root (savefile P x) = root P.
Proof.
  intros Hx. rewrite (savefile_parts _ _ Hx), saves_dir_parts.
  unfold name, parent. cbn [root parts].
  change (parts P ++ ["data"; "saves"; x])%list
    with (parts P ++ ["data"; "saves"] ++ [x])%list.
  rewrite app_assoc, last_last, removelast_last. repeat split.
Qed.

(** X14. [savefile] does not confine the name to the save directory: an
    absolute name gives that absolute path, whatever the program directory,
    the empty name gives the save directory itself, and '..' steps are kept. *)
Theorem savefile_escapes P x :
  (Str.startswith_char "/" x = true -> savefile P x = of_str x) /\
  savefile P "" = saves_dir P /\
  savefile P ".." = mkPath (root P) (parts P ++ ["data"; "saves"; ".."]).
Proof.
  split; [|split].
  - intros Hx. unfold savefile, of_str, truediv at 1. rewrite Hx.
    unfold truediv. rewrite Hx. reflexivity.
  - change (savefile P "") with (truediv (saves_dir P) "").
    unfold truediv. cbn [Str.startswith_char]. change (components "") with (@nil string).
    rewrite app_nil_r. destruct (saves_dir P); reflexivity.
  - apply savefile_parts. reflexivity.
Qed.

(** X15. Saving under a one-component name of a well-formed program
    directory stays in the save directory: the path returned is in
    data/saves, its name is the given name or that name followed by '.json',
    and its lowered suffix is '.json', so loading it takes the JSON branch
    without a warning. *)
Theorem write_savefile_in_saves_dir P x state w p w' :
  wf P -> is_component x = true ->
  write_savefile state (savefile P x) w = (Ok p, w') ->
  parent p = saves_dir P /\
  (name p = x \/ name p = x ++ ".json") /\
  Str.lower (suffix p) = ".json" /\
  savefile P (name p) = p.
Proof.
  intros HP Hx Hwrite.
  assert (Hwf : wf (savefile P x)).
  { unfold savefile. repeat apply wf_truediv. exact HP. }
  pose proof (savefile_name P x Hx) as Hn. pose proof (savefile_parent P x Hx) as Hpar.
  apply write_savefile_Ok in Hwrite as (s & text & _ & _ & _ & -> & Hf & _).
  assert (Hname : name (target_path (savefile P x)) = x
                  \/ name (target_path (savefile P x)) = x ++ ".json").
  { rewrite <- Hn at 2 4. apply name_target_path, Hwf. }
  assert (Hparent : parent (target_path (savefile P x)) = saves_dir P).
  { rewrite (parent_target_path _ Hwf). exact Hpar. }
  split; [exact Hparent|]. split; [exact Hname|]. split.
  - rewrite (target_path_suffix _ Hwf), Hn.
    destruct (String.eqb x "") eqn:E; [|reflexivity].
    apply String.eqb_eq in E. subst x. discriminate.
  - pose proof (wf_target_path _ Hwf) as Hwt.
    set (t := target_path (savefile P x)) in *.
    assert (Hc : is_component (name t) = true).
    { destruct Hname as [-> | ->]; [exact Hx|].
      apply json_name_component. unfold is_component in Hx.
      apply andb_true_iff in Hx as [_ Hx]. apply negb_true_iff, Hx. }
    rewrite (savefile_parts _ _ Hc).
    destruct t as [r q]. unfold parent, name in *. cbn [root parts] in *.
    rewrite saves_dir_parts in Hparent. injection Hparent as -> Hq.
    destruct q as [|a q] using rev_ind.
    { cbn in Hc. discriminate. }
    rewrite removelast_last in Hq. rewrite last_last. subst q.
    rewrite <- app_assoc. reflexivity.
Qed.

(** X18. [write_savefile] returns a path only when the target could be
    opened and the state is a state object that the encoder accepted; the
    returned path is the target and holds exactly the encoded text.  A save
    that failed is never reported as done. *)
Theorem write_savefile_returns_only_if state file w p w' :
  write_savefile state file w = (Ok p, w') ->
  (target_path file ∉ unwritable w) /\
  exists s text, heap w !! state = Some s /\ MessageToJson (as_proto s) = Ok text /\
    p = target_path file /\ files w' !! p = Some text.
Proof.
  intros H. apply write_savefile_Ok in H as (s & text & Hs & Ht & Hw & -> & Hf & _).
  split; [exact Hw|]. exists s, text. repeat split; try assumption.
  rewrite Hf. apply lookup_insert_eq.
Qed.

(** X19. After a save that returned, a second save of the same state to the
    same path, when it returns, returns the same path and leaves the files as
    the first save left them.  So does a save to the path that was returned,
    when the given path was built by [pathlib] and has a name. *)
Theorem write_savefile_again state file w p w1 :
  write_savefile state file w = (Ok p, w1) ->
  (forall q w2,
     write_savefile state file w1 = (Ok q, w2) -> q = p /\ files w2 = files w1) /\
  (wf file -> name file <> "" ->
   forall q w2,
     write_savefile state p w1 = (Ok q, w2) -> q = p /\ files w2 = files w1).
Proof.
  intros H. apply write_savefile_Ok in H as (s & text & Hs & Ht & _ & -> & Hf & Hh).
  assert (Hagain : forall file' q w2,
            target_path file' = target_path file ->
            write_savefile state file' w1 = (Ok q, w2) ->
            q = target_path file /\ files w2 = files w1).
  { intros file' q w2 Htarget H.
    apply write_savefile_Ok in H as (s' & text' & Hs' & Ht' & _ & -> & Hf' & _).
    rewrite Hh, Hs in Hs'. injection Hs' as <-.
    rewrite Ht in Ht'. injection Ht' as <-.
    split; [exact Htarget|].
    rewrite Hf', Htarget, Hf. apply insert_insert_eq. }
  split.
  - intros q w2. apply Hagain. reflexivity.
  - intros Hwf Hn q w2. apply Hagain.
    apply target_path_json. rewrite (target_path_suffix _ Hwf).
    apply String.eqb_neq in Hn. rewrite Hn. reflexivity.
Qed.

End FurtherProperties.

(** ** Properties of the other functions *)

Section ProfilingFacts.

Implicit Types (c a : ascii) (x y : string).

Lemma wf_PROGRAM_PATH frozen executable sys_path_0 cwd :
  wf cwd -> wf (PROGRAM_PATH frozen executable sys_path_0 cwd).
Proof.
  intros Hc. unfold PROGRAM_PATH. destruct frozen; [apply wf_parent, wf_of_str|].
  destruct (String.eqb sys_path_0 ""); [exact Hc | apply wf_of_str].
Qed.

Lemma split_length c x : length (Str.split c x) = S (count c x).
Proof.
  induction x as [|a x IH]; [reflexivity|].
  cbn [Str.split count]. destruct (Ascii.eqb a c).
  - cbn [length]. rewrite IH. reflexivity.
  - destruct (Str.split c x) as [|h t]; cbn [length] in *; [discriminate | exact IH].
Qed.

Lemma join_cons_char c a h t :
  Str.join (String c "") (String a h :: t) = String a (Str.join (String c "") (h :: t)).
Proof. destruct t; reflexivity. Qed.

Lemma join_empty_cons c h t :
  Str.join (String c "") ("" :: h :: t) = String c (Str.join (String c "") (h :: t)).
Proof. reflexivity. Qed.

(** The first pieces of a split, joined again, are the text up to a
    separator or its end. *)
Lemma join_firstn_split c n x :
  exists rest, x = Str.join (String c "") (firstn n (Str.split c x)) ++ rest.
Proof.
  revert n. induction x as [|a x IH]; intros n.
  - exists "". destruct n as [|n]; [reflexivity|]. cbn. destruct n; reflexivity.
  - destruct n as [|n]; [exists (String a x); reflexivity|].
    cbn [Str.split]. destruct (Ascii.eqb a c) eqn:E.
    + apply Ascii.eqb_eq in E. subst a. cbn [firstn].
      destruct (IH n) as [rest Hrest].
      destruct (firstn n (Str.split c x)) as [|h t] eqn:Ef.
      * exists (String c x). reflexivity.
      * exists rest. rewrite join_empty_cons, append_cons. f_equal. exact Hrest.
    + destruct (IH (S n)) as [rest Hrest].
      destruct (Str.split c x) as [|h t] eqn:Es; [destruct (split_not_nil _ _ Es)|].
      cbn [firstn] in *. exists rest.
      rewrite join_cons_char, append_cons. f_equal. exact Hrest.
Qed.

Lemma join_split c x : Str.join (String c "") (Str.split c x) = x.
Proof.
  induction x as [|a x IH]; [reflexivity|].
  cbn [Str.split]. destruct (Ascii.eqb a c) eqn:E.
  - apply Ascii.eqb_eq in E. subst a.
    destruct (Str.split c x) as [|h t] eqn:Es; [destruct (split_not_nil _ _ Es)|].
    rewrite join_empty_cons. f_equal. exact IH.
  - destruct (Str.split c x) as [|h t] eqn:Es; [destruct (split_not_nil _ _ Es)|].
    rewrite join_cons_char. f_equal. exact IH.
Qed.

Lemma Forall_firstn {A} (P : A -> Prop) n (l : list A) : Forall P l -> Forall P (firstn n l).
Proof.
  intros H. revert n. induction H as [|a l Ha Hl IH]; intros [|n]; cbn [firstn];
    constructor; [exact Ha | apply IH].
Qed.

(** X16. [_dump_profiling_stats] prints at least one line and at most 30:
    one more than the line feeds of the yappi output, cut at 30.  An empty
    output prints one empty line.  No printed line holds a line feed, and
    what was on the standard output before stays. *)
Theorem dump_profiling_stats_lines yappi_output stdout :
  exists lines,
    _dump_profiling_stats yappi_output stdout = (stdout ++ lines)%list /\
    length lines = Nat.min 30 (S (count LF yappi_output)) /\
    (1 <= length lines <= 30)%nat /\
    Forall (fun line => Str.contains LF line = false) lines /\
    _dump_profiling_stats "" stdout = (stdout ++ [""])%list.
Proof.
  exists (firstn 30 (Str.split LF yappi_output)).
  split; [reflexivity|].
  assert (Hlen : length (firstn 30 (Str.split LF yappi_output))
                 = Nat.min 30 (S (count LF yappi_output))).
  { rewrite length_firstn, split_length. reflexivity. }
  split; [exact Hlen|]. split; [rewrite Hlen; lia|].
  split; [apply Forall_firstn, split_pieces | reflexivity].
Qed.

(** X17. The printed lines, joined by line feeds, are the beginning of the
    yappi output, and the whole of it when it has fewer than 30 line feeds. *)
Theorem dump_profiling_stats_text yappi_output stdout :
  exists lines,
    _dump_profiling_stats yappi_output stdout = (stdout ++ lines)%list /\
    (exists rest, yappi_output = Str.join (String LF "") lines ++ rest) /\
    ((count LF yappi_output < 30)%nat -> Str.join (String LF "") lines = yappi_output).
Proof.
  exists (firstn 30 (Str.split LF yappi_output)).
  split; [reflexivity|]. split; [apply join_firstn_split|].
  intros Hc. rewrite firstn_all2 by (rewrite split_length; lia). apply join_split.
Qed.

End ProfilingFacts.

(** ** The properties on the stand-in collaborators *)

Lemma run_eq {Entity A : Type} (m : M (Entity := Entity) A) (w : World Entity) (r : Result A) :
  fst (m w) = r -> m w = (r, snd (m w)).
Proof. intros <-. apply surjective_pairing. Qed.

Section Runs.

#[local] Existing Instance Fake.collaborators.

Example allowed_time_accs_eq : allowed_time_accs = [1; 5; 10; 50; 100; 1000; 10000; 100000].
Proof. reflexivity. Qed.

Example target_path_mysave : target_path (of_str "mysave") = of_str "mysave.json".
Proof. reflexivity. Qed.

Example target_path_save_bak : target_path (of_str "save.bak") = of_str "save.bak.json".
Proof. reflexivity. Qed.

Example target_path_upper : target_path (of_str "SAVE.JSON") = of_str "SAVE.JSON".
Proof. reflexivity. Qed.

Lemma load_savefile_canonical_witness :
  load_savefile (of_str "saves/OSBACKUP.RND") Fake.world
  = (Ok 1%positive, Fake.loaded "saves/OSBACKUP.RND")
  /\ exists s, heap (Fake.loaded "saves/OSBACKUP.RND") !! 1%positive = Some s /\
       time_acc s <> 0 /\ reference s <> "" /\ target s <> "" /\
       float_eq (srb_time s) 0 = false.
Proof.
  assert (H : load_savefile (of_str "saves/OSBACKUP.RND") Fake.world
              = (Ok 1%positive, Fake.loaded "saves/OSBACKUP.RND"))
    by (apply (run_eq (load_savefile (of_str "saves/OSBACKUP.RND")) Fake.world);
        vm_compute; reflexivity).
  split; [exact H | exact (load_savefile_canonical _ _ _ _ H)].
Defined.

Lemma load_savefile_fills_defaults_witness :
  exists l w',
    load_savefile (of_str "saves/empty.json") Fake.world = (Ok l, w') /\
    heap w' !! l = Some (mkPhysicsState 1 "Earth" "AYSE" (-1)%float [HABITAT; EARTH]) /\
    DEFAULT_REFERENCE = "Earth" /\ DEFAULT_TARGET = "AYSE" /\ SRB_FULL = (-1)%float /\
    files w' = files Fake.world /\
    (forall l', l' <> l -> heap w' !! l' = heap Fake.world !! l').
Proof.
  apply (load_savefile_fills_defaults (of_str "saves/empty.json") Fake.world Fake.unset).
  - vm_compute; reflexivity.
  - reflexivity.
  - reflexivity.
  - reflexivity.
  - vm_compute; reflexivity.
Defined.

Lemma load_savefile_keeps_set_values_witness :
  exists l w' s,
    load_savefile (of_str "saves/flying.json") Fake.world = (Ok l, w') /\
    heap w' !! l = Some s /\
    (time_acc Fake.flying <> 0 -> time_acc s = 50) /\
    (reference Fake.flying <> "" -> reference s = "Earth") /\
    (target Fake.flying <> "" -> target s = "AYSE") /\
    (float_eq (srb_time Fake.flying) 0 = false -> srb_time s = (-2)%float) /\
    entities s = [HABITAT; AYSE; EARTH] /\
    (forall es, Fake.flying = mkPhysicsState 50 "Earth" "AYSE" (-2)%float es -> s = Fake.flying) /\
    SRB_EMPTY = (-2)%float.
Proof.
  apply (load_savefile_keeps_set_values (of_str "saves/flying.json") Fake.world Fake.flying).
  vm_compute; reflexivity.
Defined.

Lemma write_savefile_appends_json_witness :
  wf (of_str "saves/save.bak") /\ Str.lower (suffix (of_str "saves/save.bak")) <> ".json" /\
  (forall p w',
     write_savefile 1%positive (of_str "saves/save.bak") (Fake.loaded "saves/flying.json")
     = (Ok p, w') -> p = of_str "saves/save.bak.json").
Proof.
  assert (Hwf : wf (of_str "saves/save.bak")) by (repeat constructor).
  assert (Hs : Str.lower (suffix (of_str "saves/save.bak")) <> ".json")
    by (vm_compute; discriminate).
  split; [exact Hwf|]. split; [exact Hs|].
  exact (proj1 (proj2 (proj2 (proj2
    (write_savefile_appends_json 1%positive (of_str "saves/save.bak")
       (Fake.loaded "saves/flying.json") Hwf Hs))))).
Defined.

Lemma load_savefile_unknown_suffix_witness :
  exists l1 w1' l2 w2' s,
    load_savefile (of_str "saves/mysave.txt") Fake.world = (Ok l1, w1') /\
    load_savefile (of_str "saves/mysave.json") Fake.world = (Ok l2, w2') /\
    heap w1' !! l1 = Some s /\ heap w2' !! l2 = Some s /\
    log w1' =
      [mkLog INFO "Loading savefile /home/saves/mysave.txt";
       mkLog WARNING "saves/mysave.txt is not a .json file, trying to load it anyways."] /\
    log w2' = [mkLog INFO "Loading savefile /home/saves/mysave.json"] /\
    files w1' = Fake.disk /\ files w2' = Fake.disk /\
    (heap Fake.world = heap Fake.world -> l1 = l2 /\ heap w1' = heap w2').
Proof.
  assert (H1 : Str.lower (suffix (of_str "saves/mysave.txt")) <> ".rnd")
    by (vm_compute; discriminate).
  assert (H2 : Str.lower (suffix (of_str "saves/mysave.txt")) <> ".json")
    by (vm_compute; discriminate).
  assert (H3 : Str.lower (suffix (of_str "saves/mysave.json")) = ".json")
    by (vm_compute; reflexivity).
  assert (H4 : files Fake.world !! of_str "saves/mysave.txt" = Some "{flying}")
    by (vm_compute; reflexivity).
  assert (H5 : files Fake.world !! of_str "saves/mysave.json" = Some "{flying}")
    by (vm_compute; reflexivity).
  assert (H6 : json_Parse "{flying}" = Ok Fake.flying)
    by (vm_compute; reflexivity).
  exact (load_savefile_unknown_suffix _ _ Fake.world Fake.world _ _ H1 H2 H3 H4 H5 H6).
Defined.


Lemma load_savefile_time_acc_witness :
  load_savefile (of_str "saves/empty.json") Fake.world
  = (Ok 1%positive, Fake.loaded "saves/empty.json")
  /\ exists d s, decoded (of_str "saves/empty.json") Fake.world = Ok d /\
       heap (Fake.loaded "saves/empty.json") !! 1%positive = Some s /\
       time_acc s = (if Z.eqb (time_acc d) 0 then 1 else time_acc d) /\
       time_acc s <> 0.
Proof.
  assert (H : load_savefile (of_str "saves/empty.json") Fake.world
              = (Ok 1%positive, Fake.loaded "saves/empty.json"))
    by (apply (run_eq (load_savefile (of_str "saves/empty.json")) Fake.world);
        vm_compute; reflexivity).
  split; [exact H | exact (load_savefile_time_acc _ _ _ _ H)].
Defined.

(** C8, as stated, fails: a document with time acceleration 7 loads, and the
    state returned has time acceleration 7, which is not in [TIME_ACCS]. *)
Lemma load_savefile_time_acc_outside_TIME_ACCS :
  exists l w' s,
    load_savefile (of_str "saves/odd.json") Fake.world = (Ok l, w') /\
    heap w' !! l = Some s /\ time_acc s = 7 /\
    ~ In (time_acc s) allowed_time_accs /\
    ~ In (time_acc s) (List.map value TIME_ACCS).
Proof.
  exists 1%positive, (Fake.loaded "saves/odd.json"), Fake.odd_speed.
  split; [apply (run_eq (load_savefile (of_str "saves/odd.json")) Fake.world);
          vm_compute; reflexivity|].
  split; [vm_compute; reflexivity|].
  split; [reflexivity|].
  split; cbn; intros H; repeat destruct H as [H|H]; try discriminate H; exact H.
Qed.


Lemma write_savefile_json_suffix_witness :
  Str.lower (suffix (of_str "saves/SAVE.Json")) = ".json" /\
  (forall p w',
     write_savefile 1%positive (of_str "saves/SAVE.Json") (Fake.loaded "saves/flying.json")
     = (Ok p, w') -> p = of_str "saves/SAVE.Json").
Proof.
  assert (Hs : Str.lower (suffix (of_str "saves/SAVE.Json")) = ".json")
    by (vm_compute; reflexivity).
  split; [exact Hs|].
  exact (proj1 (write_savefile_json_suffix 1%positive (of_str "saves/SAVE.Json")
                  (Fake.loaded "saves/flying.json") Hs)).
Defined.

End Runs.

(** ** The further properties on the second stand-in *)

Section FurtherRuns.

#[local] Existing Instance Archive.collaborators.

Lemma write_savefile_returns_json_path_witness :
  Str.lower (suffix (savefile Archive.install "new.json")) = ".json" /\
  (forall state' w2 q w3,
     write_savefile state' (savefile Archive.install "new.json") w2 = (Ok q, w3) ->
     q = savefile Archive.install "new.json").
Proof.
  apply (write_savefile_returns_json_path 1%positive (savefile Archive.install "new")
           Archive.world (savefile Archive.install "new.json")
           (snd (write_savefile 1%positive (savefile Archive.install "new") Archive.world))).
  - repeat constructor.
  - vm_compute; discriminate.
  - apply (run_eq (write_savefile 1%positive (savefile Archive.install "new")) Archive.world).
    vm_compute; reflexivity.
Defined.

Lemma write_savefile_nameless_witness :
  of_str "/.json" = mkPath true [".json"] /\ suffix (of_str "/.json") = "" /\
  (forall state' w2 q w3,
     write_savefile state' (of_str "/.json") w2 = (Ok q, w3) -> q = of_str "/.json.json").
Proof.
  apply (write_savefile_nameless 1%positive (of_str "/") Archive.world (of_str "/.json")
           (snd (write_savefile 1%positive (of_str "/") Archive.world))).
  - constructor.
  - reflexivity.
  - apply (run_eq (write_savefile 1%positive (of_str "/")) Archive.world).
    vm_compute; reflexivity.
Defined.

Lemma load_savefile_fresh_witness :
  heap Archive.world !! 3%positive = None /\
  dom (heap (snd (load_savefile (savefile Archive.install "landed.json") Archive.world)))
  = {[3%positive]} ∪ dom (heap Archive.world).
Proof.
  apply (load_savefile_fresh (savefile Archive.install "landed.json") Archive.world).
  apply (run_eq (load_savefile (savefile Archive.install "landed.json")) Archive.world).
  vm_compute; reflexivity.
Defined.

Lemma load_savefile_again_witness :
  exists l2 w2 s,
    load_savefile (savefile Archive.install "landed.json")
      (snd (load_savefile (savefile Archive.install "landed.json") Archive.world))
    = (Ok l2, w2) /\ l2 <> 3%positive /\
    heap (snd (load_savefile (savefile Archive.install "landed.json") Archive.world))
      !! 3%positive = Some s /\
    heap w2 !! 3%positive = Some s /\ heap w2 !! l2 = Some s.
Proof.
  apply (load_savefile_again (savefile Archive.install "landed.json") Archive.world).
  apply (run_eq (load_savefile (savefile Archive.install "landed.json")) Archive.world).
  vm_compute; reflexivity.
Defined.

Lemma load_savefile_time_acc_in_table_witness :
  exists s,
    heap (snd (load_savefile (savefile Archive.install "paused.json") Archive.world))
      !! 3%positive = Some s /\
    In (time_acc s) allowed_time_accs.
Proof.
  apply (load_savefile_time_acc_in_table (savefile Archive.install "paused.json")
           Archive.world 3%positive _ Archive.paused).
  - apply (run_eq (load_savefile (savefile Archive.install "paused.json")) Archive.world).
    vm_compute; reflexivity.
  - vm_compute; reflexivity.
  - left; reflexivity.
Defined.

Lemma write_savefile_refused_witness :
  fst (write_savefile 1%positive (savefile Archive.install "locked.json") Archive.world)
  = Raise OSError /\
  files (snd (write_savefile 1%positive (savefile Archive.install "locked.json") Archive.world))
  = files Archive.world.
Proof.
  apply (write_savefile_refused 1%positive (savefile Archive.install "locked.json")
           Archive.world).
  apply (bool_decide_unpack _). vm_compute. exact I.
Defined.

Lemma write_savefile_failure_truncates_witness :
  files Archive.world !! savefile Archive.install "old.json" = Some "{flying}" /\
  files (snd (write_savefile 2%positive (savefile Archive.install "old.json") Archive.world))
    !! target_path (savefile Archive.install "old.json") = Some "".
Proof.
  split; [vm_compute; reflexivity|].
  apply (write_savefile_failure_truncates 2%positive (savefile Archive.install "old.json")
           Archive.world SchemaEncodeError).
  - apply (run_eq (write_savefile 2%positive (savefile Archive.install "old.json"))
             Archive.world).
    vm_compute; reflexivity.
  - apply (bool_decide_unpack _). vm_compute. exact I.
Defined.

Lemma write_then_load_witness :
  exists l w2,
    load_savefile (savefile Archive.install "new.json")
      (snd (write_savefile 1%positive (savefile Archive.install "new") Archive.world))
    = (Ok l, w2) /\ l <> 1%positive /\
    heap w2 !! l = Some (repair Archive.flying) /\
    heap w2 !! 1%positive = Some Archive.flying /\
    (canonical Archive.flying -> heap w2 !! l = Some Archive.flying).
Proof.
  apply (write_then_load 1%positive (savefile Archive.install "new") Archive.world
           Archive.flying "{flying}" Archive.flying).
  - repeat constructor.
  - vm_compute; reflexivity.
  - vm_compute; reflexivity.
  - vm_compute; reflexivity.
  - reflexivity.
  - apply (run_eq (write_savefile 1%positive (savefile Archive.install "new")) Archive.world).
    vm_compute; reflexivity.
Defined.

Lemma load_write_load_witness :
  exists l' w3,
    load_savefile (savefile Archive.install "copy.txt.json")
      (snd (write_savefile 3%positive (savefile Archive.install "copy.txt")
              (snd (load_savefile (savefile Archive.install "landed.json") Archive.world))))
    = (Ok l', w3) /\ l' <> 3%positive /\
    heap w3 !! l' = Some Archive.landed /\ heap w3 !! 3%positive = Some Archive.landed.
Proof.
  apply (load_write_load (savefile Archive.install "landed.json") Archive.world 3%positive
           (snd (load_savefile (savefile Archive.install "landed.json") Archive.world))
           Archive.landed (savefile Archive.install "copy.txt") "{landed}" Archive.landed).
  - repeat constructor.
  - apply (run_eq (load_savefile (savefile Archive.install "landed.json")) Archive.world).
    vm_compute; reflexivity.
  - vm_compute; reflexivity.
  - vm_compute; reflexivity.
  - vm_compute; reflexivity.
  - reflexivity.
  - apply (run_eq (write_savefile 3%positive (savefile Archive.install "copy.txt"))).
    vm_compute; reflexivity.
Defined.

Lemma savefile_plain_name_witness :
  name (savefile Archive.install "mysave") = "mysave" /\
  parent (savefile Archive.install "mysave") = saves_dir Archive.install /\
  parts (savefile Archive.install "mysave") = ["opt"; "orbitx"; "data"; "saves"; "mysave"] /\
  root (savefile Archive.install "mysave") = true.
Proof. apply (savefile_plain_name Archive.install "mysave"). reflexivity. Defined.

Lemma savefile_escapes_witness :
  savefile Archive.install "/etc/passwd" = of_str "/etc/passwd".
Proof.
  apply (proj1 (savefile_escapes Archive.install "/etc/passwd")). reflexivity.
Defined.

Lemma write_savefile_in_saves_dir_witness :
  parent (savefile Archive.install "new.bak.json") = saves_dir Archive.install /\
  (name (savefile Archive.install "new.bak.json") = "new.bak"
   \/ name (savefile Archive.install "new.bak.json") = "new.bak.json") /\
  Str.lower (suffix (savefile Archive.install "new.bak.json")) = ".json" /\
  savefile Archive.install (name (savefile Archive.install "new.bak.json"))
  = savefile Archive.install "new.bak.json".
Proof.
  apply (write_savefile_in_saves_dir
           (PROGRAM_PATH true "/opt/orbitx/orbitx.exe" "" (of_str ".")) "new.bak"
           1%positive Archive.world (savefile Archive.install "new.bak.json")
           (snd (write_savefile 1%positive (savefile Archive.install "new.bak") Archive.world))).
  - repeat constructor.
  - reflexivity.
  - apply (run_eq (write_savefile 1%positive (savefile Archive.install "new.bak"))
             Archive.world).
    vm_compute; reflexivity.
Defined.

Lemma write_savefile_returns_only_if_witness :
  (target_path (savefile Archive.install "new") ∉ unwritable Archive.world) /\
  exists s text,
    heap Archive.world !! 1%positive = Some s /\ MessageToJson (as_proto s) = Ok text /\
    savefile Archive.install "new.json" = target_path (savefile Archive.install "new") /\
    files (snd (write_savefile 1%positive (savefile Archive.install "new") Archive.world))
      !! savefile Archive.install "new.json" = Some text.
Proof.
  apply (write_savefile_returns_only_if 1%positive (savefile Archive.install "new")
           Archive.world (savefile Archive.install "new.json")).
  apply (run_eq (write_savefile 1%positive (savefile Archive.install "new")) Archive.world).
  vm_compute; reflexivity.
Defined.

Lemma write_savefile_again_witness :
  (forall q w2,
     write_savefile 1%positive (savefile Archive.install "new")
       (snd (write_savefile 1%positive (savefile Archive.install "new") Archive.world))
     = (Ok q, w2) ->
     q = savefile Archive.install "new.json" /\
     files w2
     = files (snd (write_savefile 1%positive (savefile Archive.install "new") Archive.world))) /\
  (forall q w2,
     write_savefile 1%positive (savefile Archive.install "new.json")
       (snd (write_savefile 1%positive (savefile Archive.install "new") Archive.world))
     = (Ok q, w2) ->
     q = savefile Archive.install "new.json" /\
     files w2
     = files (snd (write_savefile 1%positive (savefile Archive.install "new") Archive.world))).
Proof.
  assert (H : write_savefile 1%positive (savefile Archive.install "new") Archive.world
              = (Ok (savefile Archive.install "new.json"),
                 snd (write_savefile 1%positive (savefile Archive.install "new") Archive.world))).
  { apply (run_eq (write_savefile 1%positive (savefile Archive.install "new")) Archive.world).
    vm_compute; reflexivity. }
  assert (Hwf : wf (savefile Archive.install "new")) by (repeat constructor).
  assert (Hn : name (savefile Archive.install "new") <> "") by (vm_compute; discriminate).
  split.
  - exact (proj1 (write_savefile_again _ _ _ _ _ H)).
  - exact (proj2 (write_savefile_again _ _ _ _ _ H) Hwf Hn).
Defined.

Lemma dump_profiling_stats_text_witness :
  exists lines,
    _dump_profiling_stats "name  ncall  tsub" ["started"] = ("started" :: lines) /\
    (exists rest, "name  ncall  tsub" = Str.join (String LF "") lines ++ rest) /\
    ((count LF "name  ncall  tsub" < 30)%nat ->
     Str.join (String LF "") lines = "name  ncall  tsub").
Proof. exact (dump_profiling_stats_text "name  ncall  tsub" ["started"]). Defined.

End FurtherRuns.
